(** * onviftools: WS-Discovery probe handling and ONVIF capability walk

    A shallow embedding of [onvif_discover.py] and [onvif_info.py].

    Conventions used throughout.
    - A Python [str] is a [string]; a character is its code point below 256.
    - A Python exception (an instance of [Exception]) is a [py_exn] value;
      code that may raise returns a sum whose left side is the exception.
    - Library calls the scripts make (the XML parser, the SOAP client, the
      zeep serializer) are parameters of the sections that use them. *)

From Stdlib Require Import String Ascii List ZArith Bool Lia Arith DecimalString.
Import ListNotations.
Local Open Scope list_scope.
Local Open Scope string_scope.
Set Warnings "-register-all".

(* ================================================================== *)
(** * Python values, strings and exceptions *)
(* ================================================================== *)

Module Py.

(** The line feed and the double quote, which a literal cannot hold. *)
Definition nl : string := String (ascii_of_nat 10) EmptyString.
Definition dq : string := String (ascii_of_nat 34) EmptyString.

(** The three letters outside ASCII that the scripts' messages use. *)
Definition e_acute : string := String (ascii_of_nat 233) EmptyString.
Definition a_tilde : string := String (ascii_of_nat 227) EmptyString.
Definition c_cedilla : string := String (ascii_of_nat 231) EmptyString.

(** [str.isspace] on one character, for code points below 256:
    TAB..CR, FS..US, SPACE, NEL and NBSP. *)
Definition is_py_space (c : ascii) : bool :=
  let n := nat_of_ascii c in
  ((9 <=? n)%nat && (n <=? 13)%nat) || ((28 <=? n)%nat && (n <=? 31)%nat)
  || (n =? 32)%nat || (n =? 133)%nat || (n =? 160)%nat.

Fixpoint lstrip (s : string) : string :=
  match s with
  | EmptyString => EmptyString
  | String c s' => if is_py_space c then lstrip s' else s
  end.

Fixpoint rstrip (s : string) : string :=
  match s with
  | EmptyString => EmptyString
  | String c s' =>
      match rstrip s' with
      | EmptyString => if is_py_space c then EmptyString else String c EmptyString
      | r => String c r
      end
  end.

(** [str.strip()] with no argument. *)
Definition strip (s : string) : string := rstrip (lstrip s).

(** [sep.join(parts)]. *)
Definition join (sep : string) (parts : list string) : string :=
  String.concat sep parts.

(** An exception object: its class name, [str(e)] and the stack part of
    its traceback. *)
Record py_exn : Type := mk_exn {
  exn_class : string;
  exn_str : string;
  exn_stack : string
}.

(** [traceback.format_exc()] inside the handler of [e]. *)
Definition format_exc (e : py_exn) : string :=
  "Traceback (most recent call last):" ++ nl ++ exn_stack e
  ++ exn_class e
  ++ (match exn_str e with EmptyString => EmptyString | m => ": " ++ m end)
  ++ nl.

(** Values of the kinds the scripts inspect: [None], [bool], [int], [str],
    [list] and [dict] (insertion-ordered, keyed by hashable values). *)
Inductive pyval : Type :=
| VNone
| VBool (b : bool)
| VInt (z : Z)
| VStr (s : string)
| VList (l : list pyval)
| VDict (d : list (pyval * pyval)).

Definition dict : Type := list (pyval * pyval).

(** [type(v).__name__]. *)
Definition type_name (v : pyval) : string :=
  match v with
  | VNone => "NoneType"
  | VBool _ => "bool"
  | VInt _ => "int"
  | VStr _ => "str"
  | VList _ => "list"
  | VDict _ => "dict"
  end.

(** [bool(v)]. *)
Definition truthy (v : pyval) : bool :=
  match v with
  | VNone => false
  | VBool b => b
  | VInt z => negb (Z.eqb z 0)
  | VStr s => negb (String.eqb s EmptyString)
  | VList l => match l with [] => false | _ => true end
  | VDict d => match d with [] => false | _ => true end
  end.

(** [a or b]; both operands here are already evaluated and side-effect free. *)
Definition py_or (a b : pyval) : pyval := if truthy a then a else b.

(** Lists and dicts cannot be dict keys. *)
Definition hashable (v : pyval) : bool :=
  match v with
  | VList _ | VDict _ => false
  | _ => true
  end.

(** Equality of two hashable keys ([True == 1] and [False == 0]). *)
Definition key_eqb (a b : pyval) : bool :=
  match a, b with
  | VNone, VNone => true
  | VBool x, VBool y => Bool.eqb x y
  | VBool x, VInt y | VInt y, VBool x => Z.eqb (if x then 1 else 0)%Z y
  | VInt x, VInt y => Z.eqb x y
  | VStr x, VStr y => String.eqb x y
  | _, _ => false
  end.

(** [d.get(k)] as an option: [None] when the key is absent. *)
Fixpoint dict_get (d : dict) (k : pyval) : option pyval :=
  match d with
  | [] => None
  | (k', v) :: rest => if key_eqb k' k then Some v else dict_get rest k
  end.

(** [d[k] = v]: the value of an existing key is replaced in place, a new
    key goes last. *)
Fixpoint dict_set (d : dict) (k v : pyval) : dict :=
  match d with
  | [] => [(k, v)]
  | (k', v') :: rest =>
      if key_eqb k' k then (k', v) :: rest else (k', v') :: dict_set rest k v
  end.

(** [k in d]. *)
Definition dict_mem (d : dict) (k : pyval) : bool :=
  match dict_get d k with Some _ => true | None => false end.

(** [list(d.keys())]. *)
Definition dict_keys (d : dict) : list pyval := map fst d.

(** [d.get(k, default)]. *)
Definition get_default (d : dict) (k default : pyval) : pyval :=
  match dict_get d k with Some v => v | None => default end.

(** Exceptions that the interpreter raises.  Their class and message are
    modelled; the stack part is left empty, so nothing is to be read from
    the traceback text of such an exception. *)
Definition AttributeError (v : pyval) (attr : string) : py_exn :=
  mk_exn "AttributeError"
         ("'" ++ type_name v ++ "' object has no attribute '" ++ attr ++ "'")
         EmptyString.

Definition TypeError_unhashable (v : pyval) : py_exn :=
  mk_exn "TypeError" ("unhashable type: '" ++ type_name v ++ "'") EmptyString.

Definition TypeError_not_iterable (v : pyval) : py_exn :=
  mk_exn "TypeError" ("'" ++ type_name v ++ "' object is not iterable")
         EmptyString.

(** [v.get]: only a dict has the attribute. *)
Definition getattr_get (v : pyval) : py_exn + dict :=
  match v with
  | VDict d => inr d
  | _ => inl (AttributeError v "get")
  end.

(** The characters of a string, each as a one-character [str]. *)
Fixpoint chars (s : string) : list pyval :=
  match s with
  | EmptyString => []
  | String c s' => VStr (String c EmptyString) :: chars s'
  end.

(** [iter(v)] run to the end: what a [for] loop over [v] visits. *)
Definition py_iter (v : pyval) : py_exn + list pyval :=
  match v with
  | VList l => inr l
  | VDict d => inr (dict_keys d)
  | VStr s => inr (chars s)
  | _ => inl (TypeError_not_iterable v)
  end.

End Py.

(* ================================================================== *)
(** * onvif_discover.py *)
(* ================================================================== *)

Module Discover.
Import Py.

Definition MULTICAST_GROUP : string := "239.255.255.250".
Definition PORT : Z := 3702.
(** Seconds to wait for answers. *)
Definition TIMEOUT : Z := 5.

(** ** The probe

    [PROBE_MESSAGE] is an f-string assigned at module level: its one
    replacement field, [uuid.uuid4()], is evaluated when the assignment
    runs, that is when the module is loaded. *)

(** The text of the [MessageID] header for the uuid text [u]. *)
Definition message_id (u : string) : string := "uuid:" ++ u.

Definition probe_head : string :=
  "<?xml version=" ++ dq ++ "1.0" ++ dq ++ " encoding=" ++ dq ++ "utf-8" ++ dq ++ "?>" ++ nl ++
  "<e:Envelope xmlns:e=" ++ dq ++ "http://www.w3.org/2003/05/soap-envelope" ++ dq ++ nl ++
  "            xmlns:w=" ++ dq ++ "http://schemas.xmlsoap.org/ws/2004/08/addressing" ++ dq ++ nl ++
  "            xmlns:d=" ++ dq ++ "http://schemas.xmlsoap.org/ws/2005/04/discovery" ++ dq ++ ">" ++ nl ++
  "  <e:Header>" ++ nl ++
  "    <w:MessageID>".

Definition probe_tail : string :=
  "</w:MessageID>" ++ nl ++
  "    <w:To>urn:schemas-xmlsoap-org:ws:2005:04:discovery</w:To>" ++ nl ++
  "    <w:Action>http://schemas.xmlsoap.org/ws/2005/04/discovery/Probe</w:Action>" ++ nl ++
  "  </e:Header>" ++ nl ++
  "  <e:Body>" ++ nl ++
  "    <d:Probe>" ++ nl ++
  "      <d:Types>dn:NetworkVideoTransmitter</d:Types>" ++ nl ++
  "    </d:Probe>" ++ nl ++
  "  </e:Body>" ++ nl ++
  "</e:Envelope>" ++ nl.

(** The f-string with its field filled by the uuid text [u]. *)
Definition probe_text (u : string) : string :=
  probe_head ++ message_id u ++ probe_tail.

(** The interpreter process as far as uuids go: [uuid_source k] is the text
    of the [k]-th uuid that [uuid.uuid4()] hands out, [uuid_drawn] counts
    the calls made so far. *)
Record process : Type := mk_process {
  uuid_source : nat -> string;
  uuid_drawn : nat
}.

(** [str(uuid.uuid4())]. *)
Definition uuid4 (p : process) : string * process :=
  (uuid_source p (uuid_drawn p),
   mk_process (uuid_source p) (S (uuid_drawn p))).

(** The module's global that the discovery function reads. *)
Record module_globals : Type := mk_globals {
  PROBE_MESSAGE : string
}.

(** Loading the module runs its top-level assignments once. *)
Definition load_module (p : process) : module_globals * process :=
  let (u, p') := uuid4 p in
  (mk_globals (probe_text u), p').

(** ** Probe-Match parsing *)

(** An [xml.etree.ElementTree.Element]: tag in [{uri}local] form, text
    ([None] for an element without character data before its first child)
    and children.  Attributes and tails are not read by the script. *)
Inductive element : Type :=
| Element (tag : string) (text : option string) (children : list element).

Definition tag_of (e : element) : string :=
  match e with Element t _ _ => t end.
Definition text_of (e : element) : option string :=
  match e with Element _ t _ => t end.
Definition children_of (e : element) : list element :=
  match e with Element _ _ c => c end.

(** [e.iter()]: the element and all below it, in document order. *)
Fixpoint iter (e : element) : list element :=
  match e with
  | Element _ _ cs => e :: flat_map iter cs
  end.

(** The namespace map [ns] of [parse_probe_response]. *)
Definition ns_e : string := "http://www.w3.org/2003/05/soap-envelope".
Definition ns_a : string := "http://schemas.xmlsoap.org/ws/2004/08/addressing".
Definition ns_d : string := "http://schemas.xmlsoap.org/ws/2005/04/discovery".

(** A prefixed name resolved against the map. *)
Definition qname (uri local : string) : string := "{" ++ uri ++ "}" ++ local.

(** [root.findall(".//p:local", ns)] with [p] bound to [uri]: every proper
    descendant of [root] with that tag, in document order. *)
Definition findall_descendants (root : element) (uri local : string)
  : list element :=
  filter (fun e => String.eqb (tag_of e) (qname uri local))
         (flat_map iter (children_of root)).

(** What the expat parser reports for text that is not well-formed. *)
Record expat_error : Type := mk_expat_error {
  err_reason : string;
  err_line : nat;
  err_column : nat
}.

Definition decimal (n : nat) : string :=
  NilZero.string_of_uint (Nat.to_uint n).

(** The [ParseError] raised by [ET.fromstring]; its message has the form
    [reason: line L, column C]. *)
Definition ParseError (x : expat_error) : py_exn :=
  mk_exn "xml.etree.ElementTree.ParseError"
         (err_reason x ++ ": line " ++ decimal (err_line x)
          ++ ", column " ++ decimal (err_column x))
         EmptyString.

(** The dict [info]: the two lists are always present; the four scope
    fields are set only when the [try] block ran to its end (the outer
    [None] is an absent key, [Some None] the value [None]); [error] and
    [from] are set by the handler and by the caller. *)
Record device_info : Type := mk_info {
  Scopes : list string;
  XAddrs : list string;
  Manufacturer : option (option string);
  Model : option (option string);
  Hardware : option (option string);
  Location : option (option string);
  error : option string;
  from : option string
}.

Definition is_space (c : ascii) : bool := Ascii.eqb c " "%char.

(** If [s] begins with [p], what follows [p]. *)
Fixpoint strip_prefix (p s : string) : option string :=
  match p, s with
  | EmptyString, _ => Some s
  | String a p', String b s' => if Ascii.eqb a b then strip_prefix p' s' else None
  | String _ _, EmptyString => None
  end.

(** The longest run matched by [[^ ]*]. *)
Fixpoint take_nonspace (s : string) : string :=
  match s with
  | EmptyString => EmptyString
  | String c s' => if is_space c then EmptyString else String c (take_nonspace s')
  end.

(** [re.match] of the escaped [key], a slash and [([^ ]+)] at the start of
    [s]: group 1 on success.  The class is greedy and ends the pattern, so
    the match, when there is one, takes the whole run. *)
Definition match_here (key s : string) : option string :=
  match strip_prefix (key ++ "/") s with
  | Some rest =>
      match take_nonspace rest with
      | EmptyString => None
      | run => Some run
      end
  | None => None
  end.

(** [re.search]: the match at the leftmost position that has one. *)
Fixpoint re_search (key s : string) : option string :=
  match match_here key s with
  | Some g => Some g
  | None =>
      match s with
      | EmptyString => None
      | String _ s' => re_search key s'
      end
  end.

(** [m.group(1) if m else None]. *)
Definition extract_scope_field (scope_str key : string) : option string :=
  re_search key scope_str.

(** [s.text or ""]. *)
Definition text_or_empty (e : element) : string :=
  match text_of e with
  | Some t => t
  | None => EmptyString
  end.

Definition add_scope (info : device_info) (txt : string) : device_info :=
  mk_info (Scopes info ++ [txt]) (XAddrs info) (Manufacturer info)
          (Model info) (Hardware info) (Location info) (error info) (from info).

Definition add_xaddr (info : device_info) (txt : string) : device_info :=
  mk_info (Scopes info) (XAddrs info ++ [txt]) (Manufacturer info)
          (Model info) (Hardware info) (Location info) (error info) (from info).

Definition set_fields (info : device_info) (ma mo ha lo : option string)
  : device_info :=
  mk_info (Scopes info) (XAddrs info) (Some ma) (Some mo) (Some ha) (Some lo)
          (error info) (from info).

Definition set_error (info : device_info) (msg : string) : device_info :=
  mk_info (Scopes info) (XAddrs info) (Manufacturer info)
          (Model info) (Hardware info) (Location info) (Some msg) (from info).

Definition set_from (info : device_info) (ip : string) : device_info :=
  mk_info (Scopes info) (XAddrs info) (Manufacturer info)
          (Model info) (Hardware info) (Location info) (error info) (Some ip).

(** The loop over [scopes]. *)
Definition scopes_loop (scopes : list element) (info : device_info)
  : device_info :=
  fold_left (fun acc s => add_scope acc (strip (text_or_empty s))) scopes info.

(** The loop over [xaddrs]: [x.text.strip()] raises on an element whose
    text is [None]; what was appended before stays in [info]. *)
Fixpoint xaddrs_loop (xaddrs : list element) (info : device_info)
  : device_info * option py_exn :=
  match xaddrs with
  | [] => (info, None)
  | x :: rest =>
      match text_of x with
      | Some t => xaddrs_loop rest (add_xaddr info (strip t))
      | None => (info, Some (AttributeError VNone "strip"))
      end
  end.

Section Parser.

(** [ET.fromstring]: the root element, or the parser's report. *)
Variable fromstring : string -> expat_error + element.

(** The body of the [try] block: [info] as it stands when the block ends,
    and the exception that ended it, if any. *)
Definition try_block (xml_data : string) (info : device_info)
  : device_info * option py_exn :=
  match fromstring xml_data with
  | inl x => (info, Some (ParseError x))
  | inr root =>
      let scopes := findall_descendants root ns_d "Scopes" in
      let info := scopes_loop scopes info in
      let xaddrs := findall_descendants root ns_d "XAddrs" in
      match xaddrs_loop xaddrs info with
      | (info, Some e) => (info, Some e)
      | (info, None) =>
          let all_scopes := join " " (Scopes info) in
          (set_fields info
             (extract_scope_field all_scopes "onvif://www.onvif.org/name")
             (extract_scope_field all_scopes "onvif://www.onvif.org/model")
             (extract_scope_field all_scopes "onvif://www.onvif.org/hardware")
             (extract_scope_field all_scopes "onvif://www.onvif.org/location"),
           None)
      end
  end.

(** [parse_probe_response]: every exception of the body is caught by
    [except Exception] and stored under ["error"]; the function returns
    [info] on both paths. *)
Definition parse_probe_response (xml_data : string) : device_info :=
  let info := mk_info [] [] None None None None None None in
  match try_block xml_data info with
  | (info, None) => info
  | (info, Some e) => set_error info (exn_str e)
  end.

(** ** The receive loop *)

(** What the next [sock.recvfrom(65507)] meets.  [wait] is the time from
    the call to the event, in the unit of the timeout. *)
Inductive recv_event : Type :=
| Datagram (wait : Z) (data : list Byte.byte) (addr : string * Z)
| RecvError (wait : Z) (e : py_exn).

Definition wait_of (ev : recv_event) : Z :=
  match ev with
  | Datagram w _ _ => w
  | RecvError w _ => w
  end.

(** [data.decode(errors="ignore")]. *)
Variable decode_ignore : list Byte.byte -> string.

(** The state of one run of the loop: the records gathered and, for every
    [recvfrom] call made, how long it blocked. *)
Record scan : Type := mk_scan {
  results : list device_info;
  blocked : list Z
}.

(** [while True: ...] on a socket whose timeout is [timeout], for a
    positive [timeout]: the socket blocks.  A call returns the next event
    when it comes before the timeout has run out and raises
    [socket.timeout] otherwise, which ends the loop; an empty schedule is
    a silent network.  The time spent between two calls is not counted.
    A timeout of zero or below is outside this model (at zero the socket
    does not block and the loop has no way to end; below zero
    [settimeout] raises): what is proved about the loop assumes
    [0 < timeout]. *)
Fixpoint recv_loop (timeout : Z) (schedule : list recv_event) (st : scan)
  : scan :=
  match schedule with
  | [] => mk_scan (results st) (blocked st ++ [timeout])
  | ev :: rest =>
      if (timeout <=? wait_of ev)%Z
      then mk_scan (results st) (blocked st ++ [timeout])
      else
        match ev with
        | Datagram w data addr =>
            let xml_data := decode_ignore data in
            let device_info := parse_probe_response xml_data in
            let device_info := set_from device_info (fst addr) in
            recv_loop timeout rest
              (mk_scan (results st ++ [device_info]) (blocked st ++ [w]))
        | RecvError w e =>
            recv_loop timeout rest (mk_scan (results st) (blocked st ++ [w]))
        end
  end.

(** One run of [discover_onvif_devices]: what was sent, to whom, and the
    scan. *)
Record discovery : Type := mk_discovery {
  sent : string;
  sent_to : string * Z;
  the_scan : scan
}.

(** [discover_onvif_devices(timeout)] in a process whose module globals
    are [g]; opening the socket and sending are taken to succeed.  The
    function draws no uuid: the process is returned as it came. *)
Definition discover_onvif_devices (g : module_globals) (timeout : Z)
    (schedule : list recv_event) (p : process) : discovery * process :=
  (mk_discovery (PROBE_MESSAGE g) (MULTICAST_GROUP, PORT)
     (recv_loop timeout schedule (mk_scan [] [])),
   p).

(** The length of the receive window: the blocking times added up. *)
Definition receive_window (d : discovery) : Z :=
  fold_right Z.add 0%Z (blocked (the_scan d)).

End Parser.

End Discover.

(* ================================================================== *)
(** * onvif_info.py *)
(* ================================================================== *)

Module Info.
Import Py.

Coercion VStr : string >-> pyval.

Definition IP : string := "192.168.1.68".
Definition PORT : string := "8899".

(** [SERVICE_METHODS], in the order the dict literal lists it. *)
Definition SERVICE_METHODS : list (string * list (string * dict)) :=
  [ ("device",
     [ ("GetServices", [(VStr "IncludeCapability", VBool true)]);
       ("GetDeviceInformation", []);
       ("GetSystemDateAndTime", []);
       ("GetCapabilities", [(VStr "Category", VStr "All")]);
       ("GetScopes", []);
       ("GetHostname", []);
       ("GetNetworkInterfaces", []);
       ("GetNetworkProtocols", []);
       ("GetNTP", []);
       ("GetUsers", []) ]);
    ("media",
     [ ("GetProfiles", []);
       ("GetServiceCapabilities", []) ]);
    ("imaging",
     [ ("GetServiceCapabilities", []);
       ("GetImagingSettings", []) ]);
    ("ptz",
     [ ("GetServiceCapabilities", []);
       ("GetNodes", []) ]);
    ("events",
     [ ("GetServiceCapabilities", []) ]) ].

(** The dict [summary]: its three initial keys and the two that [main]
    may add. *)
Record Summary : Type := mk_summary {
  target : string;
  services : dict;
  errors : list pyval;
  stream_uris : option dict;
  device_info_summary : option pyval
}.

Definition set_service (s : Summary) (name : string) (v : dict) : Summary :=
  mk_summary (target s) (dict_set (services s) name (VDict v)) (errors s)
             (stream_uris s) (device_info_summary s).

Definition add_error (s : Summary) (stage : string) (e : py_exn) : Summary :=
  mk_summary (target s) (services s)
    (errors s ++ [VDict [(VStr "stage", VStr stage);
                         (VStr "error", VStr (exn_str e));
                         (VStr "traceback", VStr (format_exc e))]])
    (stream_uris s) (device_info_summary s).

Definition set_stream_uris (s : Summary) (m : dict) : Summary :=
  mk_summary (target s) (services s) (errors s) (Some m)
             (device_info_summary s).

Definition set_device_info_summary (s : Summary) (v : pyval) : Summary :=
  mk_summary (target s) (services s) (errors s) (stream_uris s) (Some v).

(** The dict [context]. *)
Record Context : Type := mk_context {
  profiles : list pyval;
  video_source_tokens : list pyval
}.

(** ** Token extraction (pure parts of [main]) *)

(** Lines 141-147: the value bound to [profiles] after the [try]. *)
Definition profiles_of (out : dict) : pyval :=
  let profiles :=
    py_or (get_default out "result" VNone)
          (get_default out "result" (VList [])) in
  match profiles with
  | VDict d => if dict_mem d "Profile" then get_default d "Profile" VNone
               else profiles
  | _ => profiles
  end.

(** Lines 154-158: [t] for one profile [p]. *)
Definition profile_token (p : pyval) : pyval :=
  match getattr_get p with
  | inr d =>
      py_or (py_or (get_default d "token" VNone) (get_default d "@token" VNone))
            (get_default d "token" VNone)
  | inl _ => VNone
  end.

(** Lines 149-161: the new value of [context["profiles"]], or [None] when
    the assignment is not reached. *)
Definition profile_tokens (out : dict) : option (list pyval) :=
  let profiles := profiles_of out in
  let profiles := match profiles with VDict _ => VList [profiles] | _ => profiles end in
  match profiles with
  | VList ps => Some (filter truthy (map profile_token ps))
  | _ => None
  end.

(** Lines 180-188: [vs_token] for one profile [p]. *)
Definition video_source_token (p : pyval) : pyval :=
  match p with
  | VDict d =>
      let vsc := py_or (get_default d "VideoSourceConfiguration" VNone)
                       (get_default d "VideoSourceConfiguration" (VDict [])) in
      match getattr_get vsc with
      | inr c => py_or (get_default c "SourceToken" VNone)
                       (get_default c "Token" VNone)
      | inl _ => VNone
      end
  | _ => VNone
  end.

(** Lines 174-193: the list [tokens] after the [try] block over
    [profiles_data]; an exception of the block is swallowed. *)
Definition scan_profiles_data (profiles_data : pyval) (tokens : list pyval)
  : list pyval :=
  let p_list :=
    match profiles_data with
    | VList _ => profiles_data
    | VDict d => get_default d "Profile" VNone
    | _ => VList []
    end in
  let p_list := match p_list with VDict _ => VList [p_list] | _ => p_list end in
  match py_iter p_list with
  | inl _ => tokens
  | inr ps =>
      fold_left (fun acc p =>
                   let vs_token := video_source_token p in
                   if truthy vs_token then (acc ++ [vs_token])%list else acc)
                ps tokens
  end.

Definition note_not_implemented : string :=
  "servi" ++ c_cedilla ++ "o n" ++ a_tilde ++ "o implementado no script".

Definition note_no_token : string :=
  "requer VideoSourceToken; n" ++ a_tilde ++ "o encontrado automaticamente".

Definition msg_method_not_found (method_name : string) : string :=
  "m" ++ e_acute ++ "todo n" ++ a_tilde ++ "o encontrado: " ++ method_name.

Definition msg_create_failed (svc_name : string) (e : py_exn) : string :=
  "falha ao criar servi" ++ c_cedilla ++ "o " ++ svc_name ++ ": " ++ exn_str e.

(** The argument of [GetStreamUri] for one profile token. *)
Definition stream_request (token : pyval) : pyval :=
  VDict [ (VStr "StreamSetup",
           VDict [ (VStr "Stream", VStr "RTP-Unicast");
                   (VStr "Transport", VDict [(VStr "Protocol", VStr "RTSP")]) ]);
          (VStr "ProfileToken", token) ].

(** ** The shapes of report entries *)

(** What [safe_call] returns after a call that went through. *)
Definition success (v : pyval) : dict := [(VStr "result", v)].

(** What [safe_call] and the stream pass store for an exception. *)
Definition failure (e : py_exn) : dict :=
  [ (VStr "error", VStr (exn_str e));
    (VStr "traceback", VStr (format_exc e)) ].

(** What [safe_call] returns when the method lookup raised. *)
Definition lookup_failure (method_name : string) (e : py_exn) : dict :=
  [ (VStr "error", VStr (msg_method_not_found method_name));
    (VStr "exc", VStr (exn_str e)) ].

(** The note stored for [GetImagingSettings] without a token. *)
Definition prerequisite_missing : dict :=
  [(VStr "note", VStr note_no_token)].

(** The entry of a service category whose proxy could not be created. *)
Definition session_failure (svc_name : string) (e : py_exn) : dict :=
  [ (VStr "error", VStr (msg_create_failed svc_name e));
    (VStr "traceback", VStr (format_exc e)) ].

(** The entry that the stream pass appends to [errors] when it fails as a
    whole. *)
Definition stream_pass_error (e : py_exn) : pyval :=
  VDict [ (VStr "stage", VStr "GetStreamUri");
          (VStr "error", VStr (exn_str e));
          (VStr "traceback", VStr (format_exc e)) ].

(** The entry of a category that [service_creators] does not know. *)
Definition not_implemented : dict :=
  [(VStr "note", VStr note_not_implemented)].

(** The outcome recorded for one configured call. *)
Inductive call_outcome : pyval -> Prop :=
| outcome_success (v : pyval) : call_outcome (VDict (success v))
| outcome_failure (e : py_exn) : call_outcome (VDict (failure e))
| outcome_lookup_failure (method_name : string) (e : py_exn) :
    call_outcome (VDict (lookup_failure method_name e))
| outcome_prerequisite_missing : call_outcome (VDict prerequisite_missing).

(** The state in which the imaging branch finds nothing to derive tokens
    from: no video-source token in the context and no
    ["media_GetProfiles"] key among the services of the report. *)
Definition nothing_to_derive (s : Summary) (c : Context) : Prop :=
  dict_get (services s) (VStr "media_GetProfiles") = None /\
  video_source_tokens c = [].

(** [s'] is [s] except for the service entries named in [names]. *)
Definition same_except (names : list string) (s s' : Summary) : Prop :=
  target s' = target s /\ errors s' = errors s /\
  stream_uris s' = stream_uris s /\
  device_info_summary s' = device_info_summary s /\
  forall k, ~ In k names ->
            dict_get (services s') (VStr k) = dict_get (services s) (VStr k).

Section Orchestrator.

(** The state of the device and of the network between two SOAP calls. *)
Variable W : Type.
(** What a SOAP call returns: a zeep object. *)
Variable raw : Type.
(** [zeep.helpers.serialize_object], the JSON round trip of the fallback,
    and [str]. *)
Variable serialize_object : raw -> py_exn + pyval.
Variable json_roundtrip : raw -> py_exn + pyval.
Variable py_str : raw -> py_exn + string.

(** Code that talks to the device: it may change the world and it either
    returns or raises; the world outlives an exception. *)
Definition M (A : Type) : Type := W -> (py_exn + A) * W.

Definition ret {A : Type} (a : A) : M A := fun w => (inr a, w).

Definition raise {A : Type} (e : py_exn) : M A := fun w => (inl e, w).

Definition lift {A : Type} (r : py_exn + A) : M A := fun w => (r, w).

Definition bind {A B : Type} (m : M A) (k : A -> M B) : M B :=
  fun w =>
    match m w with
    | (inr a, w') => k a w'
    | (inl e, w') => (inl e, w')
    end.

(** [try: m  except Exception as e: h e]. *)
Definition try_except {A : Type} (m : M A) (h : py_exn -> M A) : M A :=
  fun w =>
    match m w with
    | (inl e, w') => h e w'
    | (inr a, w') => (inr a, w')
    end.

Notation "x <- m ;; k" := (bind m (fun x => k))
  (at level 61, m at next level, right associativity).

(** A bound SOAP operation, called with positional and keyword arguments. *)
Definition method : Type := list pyval -> dict -> M raw.

(** A service proxy: [getattr(service, name)] builds the operation locally
    or raises. *)
Record service : Type := mk_service {
  getattr : string -> py_exn + method
}.

(** The camera object.  [devicemgmt] is an attribute; each
    [create_*_service()] builds a proxy from the endpoint table read when
    the camera object was made and from WSDL files on disk, or raises: no
    call reaches the device, so each is a value. *)
Record ONVIFCamera : Type := mk_camera {
  devicemgmt : service;
  create_media_service : py_exn + service;
  create_imaging_service : py_exn + service;
  create_ptz_service : py_exn + service;
  create_events_service : py_exn + service;
  create_analytics_service : py_exn + service
}.

(** [serialize_obj]. *)
Definition serialize_obj (obj : raw) : py_exn + pyval :=
  match serialize_object obj with
  | inr v => inr v
  | inl _ =>
      match json_roundtrip obj with
      | inr v => inr v
      | inl _ =>
          match py_str obj with
          | inr s => inr (VStr s)
          | inl e => inl e
          end
      end
  end.

(** [safe_call]. *)
Definition safe_call (svc : service) (method_name : string) (args : dict)
  : M dict :=
  match getattr svc method_name with
  | inl e =>
      ret [ (VStr "error", VStr (msg_method_not_found method_name));
            (VStr "exc", VStr (exn_str e)) ]
  | inr meth =>
      try_except
        (res <- (if truthy (VDict args) then meth [] args else meth [] []) ;;
         v <- lift (serialize_obj res) ;;
         ret [ (VStr "result", v) ])
        (fun e =>
           ret [ (VStr "error", VStr (exn_str e));
                 (VStr "traceback", VStr (format_exc e)) ])
  end.

(** [service_creators[svc_name]()], or [None] for a name the dict lacks. *)
Definition service_creators (cam : ONVIFCamera) (svc_name : string)
  : option (py_exn + service) :=
  if String.eqb svc_name "device" then Some (inr (devicemgmt cam))
  else if String.eqb svc_name "media" then Some (create_media_service cam)
  else if String.eqb svc_name "imaging" then Some (create_imaging_service cam)
  else if String.eqb svc_name "ptz" then Some (create_ptz_service cam)
  else if String.eqb svc_name "events" then Some (create_events_service cam)
  else if String.eqb svc_name "analytics" then Some (create_analytics_service cam)
  else None.

(** [d[k] = v] for a key computed at run time. *)
Definition set_item (d : dict) (k v : pyval) : M dict :=
  if hashable k then ret (dict_set d k v) else raise (TypeError_unhashable k).

(** The variables the catalog loop updates. *)
Record loop_state : Type := mk_loop {
  summary : Summary;
  context : Context;
  svc_result : dict
}.

(** Lines 196-198: one [safe_call] per token, each result appended as
    [{t: out}]. *)
Fixpoint imaging_loop (svc : service) (method_name : string)
    (tokens : list pyval) (acc : list pyval) : M (list pyval) :=
  match tokens with
  | [] => ret acc
  | t :: rest =>
      out <- safe_call svc method_name [(VStr "VideoSourceToken", t)] ;;
      entry <- set_item [] t (VDict out) ;;
      imaging_loop svc method_name rest (acc ++ [VDict entry])
  end.

(** Lines 166-193: the list [tokens] before the test [if tokens].  The list
    is the one stored in [context], so what is appended stays there. *)
Definition imaging_tokens (st : loop_state) : M (list pyval) :=
  let tokens := video_source_tokens (context st) in
  if negb (truthy (VList tokens)) then
    let med := get_default (services (summary st)) "media_GetProfiles" (VDict []) in
    profiles_data <-
      (if truthy med
       then d <- lift (getattr_get med) ;; ret (get_default d "result" VNone)
       else ret VNone) ;;
    if truthy profiles_data
    then ret (scan_profiles_data profiles_data tokens)
    else ret tokens
  else ret tokens.

(** The body of [for method, args in calls]. *)
Definition run_call (svc_name : string) (svc : service)
    (call : string * dict) (st : loop_state) : M loop_state :=
  let (method_name, args) := call in
  if String.eqb svc_name "media" && String.eqb method_name "GetProfiles" then
    out <- safe_call svc method_name args ;;
    let r := dict_set (svc_result st) method_name (VDict out) in
    let c :=
      match profile_tokens out with
      | Some tokens => mk_context tokens (video_source_tokens (context st))
      | None => context st
      end in
    ret (mk_loop (summary st) c r)
  else if String.eqb svc_name "imaging" && String.eqb method_name "GetImagingSettings" then
    tokens <- imaging_tokens st ;;
    let c := mk_context (profiles (context st)) tokens in
    if truthy (VList tokens) then
      entries <- imaging_loop svc method_name tokens [] ;;
      let r := dict_set (svc_result st) method_name (VList entries) in
      ret (mk_loop (set_service (summary st) svc_name r) c r)
    else
      let r :=
        dict_set (svc_result st) method_name
                 (VDict [(VStr "note", VStr note_no_token)]) in
      ret (mk_loop (set_service (summary st) svc_name r) c r)
  else
    out <- safe_call svc method_name args ;;
    ret (mk_loop (summary st) (context st)
                 (dict_set (svc_result st) method_name (VDict out))).

(** [for method, args in calls: ...]. *)
Fixpoint run_calls (svc_name : string) (svc : service)
    (calls : list (string * dict)) (st : loop_state) : M loop_state :=
  match calls with
  | [] => ret st
  | call :: rest =>
      st' <- run_call svc_name svc call st ;;
      run_calls svc_name svc rest st'
  end.

(** The body of [for svc_name, calls in SERVICE_METHODS.items()]. *)
Definition run_service (cam : ONVIFCamera)
    (entry : string * list (string * dict)) (sc : Summary * Context)
  : M (Summary * Context) :=
  let (svc_name, calls) := entry in
  let (s, c) := sc in
  match service_creators cam svc_name with
  | None =>
      ret (set_service s svc_name
             [(VStr "note", VStr note_not_implemented)], c)
  | Some (inl e) =>
      ret (set_service s svc_name
             [ (VStr "error", VStr (msg_create_failed svc_name e));
               (VStr "traceback", VStr (format_exc e)) ], c)
  | Some (inr svc) =>
      st <- run_calls svc_name svc calls (mk_loop s c []) ;;
      ret (set_service (summary st) svc_name (svc_result st), context st)
  end.

(** [for svc_name, calls in SERVICE_METHODS.items(): ...]. *)
Fixpoint run_catalog (cam : ONVIFCamera)
    (catalog : list (string * list (string * dict))) (sc : Summary * Context)
  : M (Summary * Context) :=
  match catalog with
  | [] => ret sc
  | entry :: rest =>
      sc' <- run_service cam entry sc ;;
      run_catalog cam rest sc'
  end.

(** Lines 218-223: one [GetStreamUri] per token. *)
Fixpoint stream_loop (media : service) (tokens : list pyval)
    (stream_map : dict) : M dict :=
  match tokens with
  | [] => ret stream_map
  | token :: rest =>
      stream_map' <-
        try_except
          (meth <- lift (getattr media "GetStreamUri") ;;
           uri_resp <- meth [stream_request token] [] ;;
           v <- lift (serialize_obj uri_resp) ;;
           set_item stream_map token v)
          (fun e =>
             set_item stream_map token
               (VDict [ (VStr "error", VStr (exn_str e));
                        (VStr "traceback", VStr (format_exc e)) ])) ;;
      stream_loop media rest stream_map'
  end.

(** Lines 214-226. *)
Definition stream_pass (cam : ONVIFCamera) (s : Summary) (c : Context)
  : M Summary :=
  try_except
    (if truthy (VList (profiles c)) then
       media <- lift (create_media_service cam) ;;
       stream_map <- stream_loop media (profiles c) [] ;;
       ret (set_stream_uris s stream_map)
     else ret s)
    (fun e => ret (add_error s "GetStreamUri" e)).

(** Lines 229-233. *)
Definition device_summary_pass (s : Summary) : Summary :=
  match getattr_get (get_default (services s) "device" (VDict [])) with
  | inr d =>
      set_device_info_summary s
        (get_default d "GetDeviceInformation" (VDict []))
  | inl _ => s
  end.

(** How [main] ends: [save_and_exit] (the partial report is written and
    the process exits with status 1) or the end of the function.  Writing
    the file and printing are not part of the model. *)
Inductive outcome : Type :=
| Exited (status : Z) (saved : Summary)
| Finished (report : Summary).

(** [main], given what the [ONVIFCamera(...)] constructor did. *)
Definition main (connect : py_exn + ONVIFCamera) : M outcome :=
  let s0 := mk_summary (IP ++ ":" ++ PORT) [] [] None None in
  match connect with
  | inl e => ret (Exited 1 (add_error s0 "connect" e))
  | inr cam =>
      s1 <-
        try_except
          (let dev_service := devicemgmt cam in
           gsv <- safe_call dev_service "GetServices"
                    [(VStr "IncludeCapability", VBool true)] ;;
           ret (set_service s0 "device_GetServices" gsv))
          (fun e => ret (add_error s0 "get_services" e)) ;;
      let c0 := mk_context [] [] in
      sc <- run_catalog cam SERVICE_METHODS (s1, c0) ;;
      s2 <- stream_pass cam (fst sc) (snd sc) ;;
      ret (Finished (device_summary_pass s2))
  end.

End Orchestrator.

Arguments mk_service {W raw} getattr.
Arguments getattr {W raw} s _.
Arguments devicemgmt {W raw} o.
Arguments create_media_service {W raw} o.
Arguments create_imaging_service {W raw} o.
Arguments create_ptz_service {W raw} o.
Arguments create_events_service {W raw} o.
Arguments create_analytics_service {W raw} o.
Arguments service_creators {W raw} cam svc_name.

Section Entries.

Variables W raw : Type.
Variable serialize_object : raw -> py_exn + pyval.
Variable json_roundtrip : raw -> py_exn + pyval.
Variable py_str : raw -> py_exn + string.

(** What the report holds for a configured category: for a category whose
    proxy was created, an outcome under each configured method name and
    under no other name; for one whose creation raised, the session
    failure record. *)
Definition service_entry (cam : ONVIFCamera W raw) (svc_name : string)
    (calls : list (string * dict)) (entry : dict) : Prop :=
  match service_creators cam svc_name with
  | Some (inr _) =>
      (forall m, In m (map fst calls) ->
                 exists o, dict_get entry (VStr m) = Some o /\ call_outcome o) /\
      (forall k v, dict_get entry (VStr k) = Some v -> In k (map fst calls))
  | Some (inl e) => entry = session_failure svc_name e
  | None => entry = not_implemented
  end.

(** What one turn of the stream pass stores for [token], started in world
    [w]: the normalized answer, or the failure record of whatever raised
    (the attribute lookup, the call, or the normalization). *)
Inductive stream_outcome (media : service W raw) (token : pyval) (w : W)
  : pyval -> W -> Prop :=
| stream_success meth resp v w' :
    getattr media "GetStreamUri" = inr meth ->
    meth [stream_request token] [] w = (inr resp, w') ->
    serialize_obj raw serialize_object json_roundtrip py_str resp = inr v ->
    stream_outcome media token w v w'
| stream_lookup_failure e :
    getattr media "GetStreamUri" = inl e ->
    stream_outcome media token w (VDict (failure e)) w
| stream_call_failure meth e w' :
    getattr media "GetStreamUri" = inr meth ->
    meth [stream_request token] [] w = (inl e, w') ->
    stream_outcome media token w (VDict (failure e)) w'
| stream_normalize_failure meth resp e w' :
    getattr media "GetStreamUri" = inr meth ->
    meth [stream_request token] [] w = (inr resp, w') ->
    serialize_obj raw serialize_object json_roundtrip py_str resp = inl e ->
    stream_outcome media token w (VDict (failure e)) w'.

End Entries.

End Info.

(* ================================================================== *)
(** * onvif_discover.py: the listing *)
(* ================================================================== *)

Module Console.
Import Py Discover.

(** The text an f-string puts for [dev.get('from')]. *)
Definition str_from (f : option string) : string :=
  match f with
  | Some ip => ip
  | None => "None"
  end.

(** The value of a scope field when [dev.get(field)] is true: the key is
    there, its value is not [None] and not the empty string. *)
Definition shown (f : option (option string)) : option string :=
  match f with
  | Some (Some v) => if String.eqb v "" then None else Some v
  | _ => None
  end.

(** The argument of one optional [print] call, or nothing. *)
Definition field_line (label : string) (f : option (option string))
  : list string :=
  match shown f with
  | Some v => [label ++ v]
  | None => []
  end.

Definition header (idx : nat) : string :=
  "=== Dispositivo #" ++ decimal idx ++ " ===".

Section Listing.

(** [repr] of a list of [str], which the f-string of the last optional
    line uses. *)
Variable repr_list : list string -> string.

(** The body of [for idx, dev in enumerate(devices, 1)]: the arguments of
    the [print] calls it makes, in order. *)
Definition device_lines (idx : nat) (dev : device_info) : list string :=
  let ip_line := "IP origem       : " ++ str_from (from dev) in
  let xaddrs_line :=
    match XAddrs dev with
    | [] => []
    | _ => ["XAddr(s)        : " ++ join ", " (XAddrs dev)]
    end in
  let location_label := "Localiza" ++ c_cedilla ++ a_tilde ++ "o     : " in
  let scopes_line :=
    match Scopes dev with
    | [] => []
    | _ => ["Scopes          : " ++ repr_list (Scopes dev)]
    end in
  (header idx :: ip_line :: xaddrs_line
   ++ field_line "Fabricante      : " (Manufacturer dev)
   ++ field_line "Modelo          : " (Model dev)
   ++ field_line "Hardware        : " (Hardware dev)
   ++ field_line location_label (Location dev)
   ++ scopes_line
   ++ [EmptyString])%list.

(** The loop, with [idx] the number of the first device of [devices]. *)
Fixpoint devices_lines (idx : nat) (devices : list device_info)
  : list string :=
  match devices with
  | [] => []
  | dev :: rest => (device_lines idx dev ++ devices_lines (S idx) rest)%list
  end.

(** [print_results]: the arguments of its [print] calls, in order. *)
Definition print_results (devices : list device_info) : list string :=
  match devices with
  | [] => ["[-] Nenhum dispositivo ONVIF encontrado."]
  | _ =>
      ("[+] " ++ decimal (List.length devices)
       ++ " dispositivo(s) ONVIF encontrados:" ++ nl)
      :: devices_lines 1 devices
  end.

End Listing.

(** Whether [line] begins with [p]. *)
Definition starts_with (p line : string) : bool :=
  match strip_prefix p line with
  | Some _ => true
  | None => false
  end.

(** The two [print] calls that every device gets: whether [line], the
    argument of a call, begins as the header or as the source address
    does. *)
Definition opens_block (line : string) : bool :=
  starts_with "=== Dispositivo #" line || starts_with "IP origem" line.

End Console.

(* ================================================================== *)
(** * onvif_info.py: the summary on the console *)
(* ================================================================== *)

Module Report.
Import Py Info.

(** The keys of a dict after [d[k] = v], from the keys before. *)
Fixpoint add_key (keys : list pyval) (k : pyval) : list pyval :=
  match keys with
  | [] => [k]
  | k' :: rest => if key_eqb k' k then k' :: rest else k' :: add_key rest k
  end.

(** Lines 245-249: the object that [main] prints at its end. *)
Definition printed_summary (s : Summary) : dict :=
  [ (VStr "target", VStr (target s));
    (VStr "services_found", VList (dict_keys (services s)));
    (VStr "errors", VInt (Z.of_nat (List.length (errors s)))) ].

End Report.

(* ================================================================== *)
(** * Sample inputs *)
(* ================================================================== *)

Module Samples.
Import Py.

(** ** Discovery *)

(** A uuid source whose draws are pairwise distinct. *)
Definition sample_uuids (k : nat) : string :=
  "0f8fad5b-d9cb-469f-a165-70867728950" ++ Discover.decimal k.

Definition fresh_process : Discover.process :=
  Discover.mk_process sample_uuids 0.

(** Two calls of [discover_onvif_devices] in one process, after the module
    was loaded there. *)
Definition two_invocations
    (fromstring : string -> Discover.expat_error + Discover.element)
    (decode_ignore : list Byte.byte -> string)
    (p : Discover.process) (t1 t2 : Z)
    (s1 s2 : list Discover.recv_event)
  : Discover.discovery * Discover.discovery :=
  let (g, p1) := Discover.load_module p in
  let (d1, p2) := Discover.discover_onvif_devices fromstring decode_ignore g t1 s1 p1 in
  let (d2, _) := Discover.discover_onvif_devices fromstring decode_ignore g t2 s2 p2 in
  (d1, d2).

Definition envelope (body : list Discover.element) : Discover.element :=
  Discover.Element (Discover.qname Discover.ns_e "Envelope") None
    [ Discover.Element (Discover.qname Discover.ns_e "Body") None
        [ Discover.Element (Discover.qname Discover.ns_d "ProbeMatches") None
            [ Discover.Element (Discover.qname Discover.ns_d "ProbeMatch") None body ] ] ].

(** A Probe-Match with one [Scopes] element and two [XAddrs] elements, the
    second of them empty ([<d:XAddrs/>]). *)
Definition probe_match_empty_xaddrs : Discover.element :=
  envelope
    [ Discover.Element (Discover.qname Discover.ns_d "Scopes")
        (Some " onvif://www.onvif.org/name/Cam onvif://www.onvif.org/model/ABC123 ") [];
      Discover.Element (Discover.qname Discover.ns_d "XAddrs")
        (Some "http://192.168.1.68:8899/onvif/device_service") [];
      Discover.Element (Discover.qname Discover.ns_d "XAddrs") None [] ].

(** A Probe-Match with two [Scopes] and two [XAddrs] elements, all with
    text. *)
Definition probe_match_full : Discover.element :=
  envelope
    [ Discover.Element (Discover.qname Discover.ns_d "Scopes")
        (Some " onvif://www.onvif.org/name/Cam ") [];
      Discover.Element (Discover.qname Discover.ns_d "XAddrs")
        (Some "http://192.168.1.68:8899/onvif/device_service") [];
      Discover.Element (Discover.qname Discover.ns_d "Scopes")
        (Some "onvif://www.onvif.org/model/ABC123") [];
      Discover.Element (Discover.qname Discover.ns_d "XAddrs")
        (Some " http://10.0.0.5/onvif/device_service") [] ].

(** A parser that knows two documents by name and rejects every other
    text. *)
Definition sample_fromstring (xml_data : string)
  : Discover.expat_error + Discover.element :=
  if String.eqb xml_data "probe-match"
  then inr probe_match_empty_xaddrs
  else if String.eqb xml_data "probe-match-full"
  then inr probe_match_full
  else inl (Discover.mk_expat_error "syntax error" 1 0).

Definition sample_decode (data : list Byte.byte) : string :=
  string_of_list_byte data.

(** Three answers, each four seconds after the previous one. *)
Definition slow_answers : list Discover.recv_event :=
  let d := Discover.Datagram 4 (list_byte_of_string "probe-match")
                             ("192.168.1.68", 3702%Z) in
  [d; d; d].

(** Two scopes of one [Scopes] element, separated by a line feed. *)
Definition scopes_on_two_lines : string :=
  "onvif://www.onvif.org/model/ABC123" ++ nl ++ "onvif://www.onvif.org/name/Cam".

(** ** Capability walk *)

(** The world of the samples: the log of the SOAP operations invoked. *)
Definition World : Type := list string.

(** A proxy whose operations log their name and answer from a table. *)
Definition canned (svc_name : string) (answers : string -> py_exn + pyval)
  : Info.service World pyval :=
  Info.mk_service
    (fun name =>
       inr (fun (_ : list pyval) (_ : dict) (w : World) =>
              (answers name, (w ++ [(svc_name ++ "." ++ name)%string])%list))).

(** A proxy on which every attribute lookup raises. *)
Definition no_operations : Info.service World pyval :=
  Info.mk_service
    (fun name => inl (mk_exn "AttributeError" ("no operation " ++ name) "")).

Definition profile_P1 : dict :=
  [ (VStr "token", VStr "P1");
    (VStr "VideoSourceConfiguration", VDict [(VStr "SourceToken", VStr "VS1")]) ].

Definition profile_P2 : dict :=
  [ (VStr "token", VStr "P2");
    (VStr "VideoSourceConfiguration", VDict [(VStr "SourceToken", VStr "VS2")]) ].

Definition two_profiles : pyval :=
  VList [VDict profile_P1; VDict profile_P2].

Definition media_answers (name : string) : py_exn + pyval :=
  if String.eqb name "GetProfiles" then inr two_profiles
  else if String.eqb name "GetStreamUri"
       then inr (VDict [(VStr "Uri", VStr "rtsp://192.168.1.68:554/stream")])
       else inr (VDict []).

Definition device_answers (name : string) : py_exn + pyval :=
  if String.eqb name "GetUsers"
  then inl (mk_exn "Fault" "Sender not Authorized" "")
  else inr (VDict []).

Definition no_ptz : py_exn :=
  mk_exn "ONVIFError" "Unknown error: Device doesn`t support service: ptz" "".

(** A camera with media and imaging services and without PTZ. *)
Definition camera_without_ptz : Info.ONVIFCamera World pyval :=
  Info.mk_camera World pyval
    (canned "device" device_answers)
    (inr (canned "media" media_answers))
    (inr (canned "imaging" (fun _ => inr (VDict []))))
    (inl no_ptz)
    (inr (canned "events" (fun _ => inr (VDict []))))
    (inl (mk_exn "ONVIFError" "Unknown error: Device doesn`t support service: analytics" "")).

(** The samples' answers are plain values already. *)
Definition plain (v : pyval) : py_exn + pyval := inr v.
Definition plain_str (v : pyval) : py_exn + string := inr (type_name v).

Definition sample_main (cam : Info.ONVIFCamera World pyval)
  : (py_exn + Info.outcome) * World :=
  Info.main World pyval plain plain plain_str (inr cam) [].

(** The report of a run, when it has one. *)
Definition report_of (r : (py_exn + Info.outcome) * World) : Info.Summary :=
  match r with
  | (inr (Info.Finished s), _) => s
  | (inr (Info.Exited _ s), _) => s
  | (inl _, _) => Info.mk_summary "" [] [] None None
  end.

(** [d[k]] when it is a dict, the empty dict otherwise. *)
Definition entry_of (d : dict) (k : string) : dict :=
  match dict_get d (VStr k) with
  | Some (VDict e) => e
  | _ => []
  end.

(** [d[k1][k2]] in a dict of dicts. *)
Definition get2 (d : dict) (k1 k2 : string) : option pyval :=
  match dict_get d (VStr k1) with
  | Some (VDict e) => dict_get e (VStr k2)
  | _ => None
  end.

(** The run of characters that are not white space at the start of [s]. *)
Fixpoint take_nonwhite (s : string) : string :=
  match s with
  | EmptyString => EmptyString
  | String c s' => if is_py_space c then EmptyString else String c (take_nonwhite s')
  end.

End Samples.

(* ================================================================== *)
(** * More sample inputs *)
(* ================================================================== *)

Module MoreSamples.
Import Py.

(** A stand-in for [repr] of a list of strings. *)
Definition sample_repr (l : list string) : string :=
  "[" ++ join ", " l ++ "]".

(** An answer in time, a receive error, and an answer that comes after
    the timeout of 5 has run out. *)
Definition mixed_answers : list Discover.recv_event :=
  [ Discover.Datagram 1 (list_byte_of_string "probe-match-full")
                      ("192.168.1.68", 3702%Z);
    Discover.RecvError 2 (mk_exn "OSError" "Network is down" "");
    Discover.Datagram 7 (list_byte_of_string "probe-match")
                      ("192.168.1.70", 3702%Z) ].

(** A camera whose media session cannot be created. *)
Definition camera_without_media : Info.ONVIFCamera Samples.World pyval :=
  Info.mk_camera Samples.World pyval
    (Samples.canned "device" Samples.device_answers)
    (inl (mk_exn "ONVIFError" "Unknown error: Device doesn`t support service: media" ""))
    (inr (Samples.canned "imaging" (fun _ => inr (VDict []))))
    (inl Samples.no_ptz)
    (inr (Samples.canned "events" (fun _ => inr (VDict []))))
    (inl Samples.no_ptz).




(** A normalizer that always fails, so that the fallbacks are used. *)
Definition unserializable (v : pyval) : py_exn + pyval :=
  inl (mk_exn "TypeError" "not serializable" "").

(** The report before the catalog pass, for a given first outcome. *)
Definition initial_summary (gsv : dict) : Info.Summary :=
  Info.set_service (Info.mk_summary "192.168.1.68:8899" [] [] None None)
                   "device_GetServices" gsv.

End MoreSamples.

(* ================================================================== *)
(** * Facts about strings *)
(* ================================================================== *)

Module StringFacts.

Lemma append_assoc (a b c : string) : (a ++ b) ++ c = a ++ (b ++ c).
Proof.
  induction a as [|x a IH]; simpl; [reflexivity | now rewrite IH].
Qed.

Lemma append_nil_r (a : string) : a ++ "" = a.
Proof.
  induction a as [|x a IH]; simpl; [reflexivity | now rewrite IH].
Qed.

Lemma length_append (a b : string) :
  String.length (a ++ b) = String.length a + String.length b.
Proof.
  induction a as [|x a IH]; simpl; [reflexivity | now rewrite IH].
Qed.

Lemma append_inv_head (p a b : string) : p ++ a = p ++ b -> a = b.
Proof.
  induction p as [|x p IH]; simpl; intros H; [exact H|].
  injection H as H. now apply IH.
Qed.

Lemma append_inv_tail (a b t : string) : a ++ t = b ++ t -> a = b.
Proof.
  revert b. induction a as [|x a IH]; intros [|y b] H; simpl in H.
  - reflexivity.
  - apply (f_equal String.length) in H. simpl in H.
    rewrite length_append in H. lia.
  - apply (f_equal String.length) in H. simpl in H.
    rewrite length_append in H. lia.
  - injection H as -> H. f_equal. now apply IH.
Qed.

End StringFacts.

(* ================================================================== *)
(** * onvif_discover.py: scope fields *)
(* ================================================================== *)

Module ScopeFieldFacts.
Import Py Discover StringFacts.

Lemma strip_prefix_some (p s r : string) :
  strip_prefix p s = Some r <-> s = p ++ r.
Proof.
  revert s. induction p as [|a p IH]; intros s; simpl.
  - split; [now intros [= ->] | now intros ->].
  - destruct s as [|b s].
    + split; discriminate.
    + destruct (Ascii.eqb_spec a b) as [->|N].
      * rewrite IH. split; [now intros -> | now intros [= ->]].
      * split; [discriminate | intros [= E _]; now elim N].
Qed.

Lemma strip_prefix_none (p s r : string) :
  strip_prefix p s = None -> s <> p ++ r.
Proof.
  intros H E. apply strip_prefix_some in E. congruence.
Qed.

Lemma is_space_true (c : ascii) : is_space c = true <-> c = " "%char.
Proof. unfold is_space. apply Ascii.eqb_eq. Qed.

(** The run has no space and stops at the end or before a space. *)
Lemma take_nonspace_split (s : string) :
  ~ In " "%char (list_ascii_of_string (take_nonspace s)) /\
  exists post, s = take_nonspace s ++ post /\
               (post = "" \/ exists post', post = String " " post').
Proof.
  induction s as [|c s (IHn & post & IHe & IHp)]; simpl.
  - split; [tauto|]. exists "". auto.
  - destruct (is_space c) eqn:Ec; simpl.
    + split; [tauto|]. apply is_space_true in Ec. subst c.
      exists (String " " s). split; [reflexivity | right; now exists s].
    + split.
      * intros [E|I]; [|now apply IHn].
        subst c. now rewrite (proj2 (is_space_true _) eq_refl) in Ec.
      * exists post. split; [now rewrite <- IHe | exact IHp].
Qed.

Lemma match_here_some (key s v : string) :
  match_here key s = Some v ->
  v <> "" /\ ~ In " "%char (list_ascii_of_string v) /\
  exists post, s = key ++ "/" ++ v ++ post /\
               (post = "" \/ exists post', post = String " " post').
Proof.
  unfold match_here. destruct (strip_prefix (key ++ "/") s) as [rest|] eqn:E;
    [|discriminate].
  apply strip_prefix_some in E.
  destruct (take_nonspace_split rest) as (Hn & post & He & Hp).
  destruct (take_nonspace rest) as [|c run] eqn:R; [discriminate|].
  intros [= <-]. split; [discriminate|]. split; [exact Hn|].
  exists post. split; [|exact Hp].
  rewrite E, append_assoc. now rewrite <- He.
Qed.

Lemma match_here_none (key s : string) (c : ascii) (post : string) :
  match_here key s = None -> s = key ++ "/" ++ String c post -> c = " "%char.
Proof.
  unfold match_here. intros H E. rewrite <- append_assoc in E.
  destruct (strip_prefix (key ++ "/") s) as [rest|] eqn:P.
  - apply strip_prefix_some in P. rewrite P in E.
    apply append_inv_head in E. subst rest. simpl in H.
    destruct (is_space c) eqn:Ec; [now apply is_space_true | discriminate].
  - now apply strip_prefix_none with (r := String c post) in P.
Qed.

(** [re_search] returns the match at the first position that has one. *)
Lemma re_search_some (key s v : string) :
  re_search key s = Some v ->
  exists pre rest,
    s = pre ++ rest /\ match_here key rest = Some v /\
    forall pre1 rest1, s = pre1 ++ rest1 ->
                       String.length pre1 < String.length pre ->
                       match_here key rest1 = None.
Proof.
  induction s as [|a s IH]; simpl.
  - destruct (match_here key "") eqn:M; [|discriminate].
    intros [= <-]. exists "", "". repeat split; auto. simpl. lia.
  - destruct (match_here key (String a s)) eqn:M.
    + intros [= <-]. exists "", (String a s). repeat split; auto. simpl. lia.
    + intros H. destruct (IH H) as (pre & rest & -> & Hm & Hl).
      exists (String a pre), rest. repeat split; auto.
      intros [|b pre1] rest1 E L; simpl in *.
      * now subst rest1.
      * injection E as <- E. apply (Hl pre1 rest1 E). lia.
Qed.

Lemma re_search_none (key s : string) :
  re_search key s = None ->
  forall pre rest, s = pre ++ rest -> match_here key rest = None.
Proof.
  induction s as [|a s IH]; simpl.
  - destruct (match_here key "") eqn:M; [discriminate|].
    intros _ [|b pre] rest E; simpl in E; [now subst rest | discriminate].
  - destruct (match_here key (String a s)) eqn:M; [discriminate|].
    intros H [|b pre] rest E; simpl in E.
    + now subst rest.
    + injection E as <- E. now apply (IH H pre).
Qed.

(** What [extract_scope_field] computes: it finds the leftmost place
    where [key], a slash and a character other than a space occur, and
    returns the run of characters other than the space (U+0020) that
    follows the slash: the value is never empty, holds no space, and ends
    at the end of the text or before a space.  When there is no such
    place the result is [None]. *)
Theorem extract_scope_field_spec (scope_str key : string) :
  match extract_scope_field scope_str key with
  | Some v =>
      v <> "" /\ ~ In " "%char (list_ascii_of_string v) /\
      exists pre post,
        scope_str = pre ++ key ++ "/" ++ v ++ post /\
        (post = "" \/ exists post', post = String " " post') /\
        (forall pre1 c post1,
            scope_str = pre1 ++ key ++ "/" ++ String c post1 ->
            c <> " "%char -> String.length pre <= String.length pre1)
  | None =>
      forall pre c post,
        scope_str = pre ++ key ++ "/" ++ String c post -> c = " "%char
  end.
Proof.
  unfold extract_scope_field.
  destruct (re_search key scope_str) as [v|] eqn:R.
  - destruct (re_search_some _ _ _ R) as (pre & rest & E & Hm & Hl).
    destruct (match_here_some _ _ _ Hm) as (Hv & Hn & post & Er & Hp).
    split; [exact Hv|]. split; [exact Hn|].
    exists pre, post. split; [now rewrite E, Er|]. split; [exact Hp|].
    intros pre1 c post1 E1 Hc.
    destruct (Nat.le_gt_cases (String.length pre) (String.length pre1))
      as [L|L]; [exact L|].
    specialize (Hl pre1 _ E1 L).
    elim Hc. now apply (match_here_none key _ c post1 Hl).
  - intros pre c post E.
    apply (match_here_none key (key ++ "/" ++ String c post) c post);
      [|reflexivity].
    now apply (re_search_none _ _ R pre).
Qed.

(** C10 at an input where the code falls short: a [Scopes] text with one
    scope per line.  The docstring gives [ABC123] as the value of the
    field in [onvif://www.onvif.org/model/ABC123], and the run of
    characters that are not white space after the key is [ABC123]; the
    class [[^ ]] of the pattern stops at a space only, so the value
    returned for the [model] key runs over the line feed into the next
    scope. *)
Lemma extract_scope_field_keeps_line_feed :
  exists rest,
    strip_prefix "onvif://www.onvif.org/model/" Samples.scopes_on_two_lines
      = Some rest /\
    Samples.take_nonwhite rest = "ABC123" /\
    extract_scope_field Samples.scopes_on_two_lines "onvif://www.onvif.org/model"
      = Some ("ABC123" ++ nl ++ "onvif://www.onvif.org/name/Cam") /\
    String.eqb ("ABC123" ++ nl ++ "onvif://www.onvif.org/name/Cam") "ABC123"
      = false.
Proof.
  eexists. split; [reflexivity|]. repeat split; vm_compute; reflexivity.
Qed.

End ScopeFieldFacts.

(* ================================================================== *)
(** * onvif_discover.py: the response parser *)
(* ================================================================== *)

Module ParserFacts.
Import Py Discover StringFacts.

Lemma scopes_loop_spec (scopes : list element) (info : device_info) :
  scopes_loop scopes info =
  mk_info (Scopes info ++ map (fun s => strip (text_or_empty s)) scopes)
          (XAddrs info) (Manufacturer info) (Model info) (Hardware info)
          (Location info) (error info) (from info).
Proof.
  unfold scopes_loop. revert info.
  induction scopes as [|s scopes IH]; intros info; simpl.
  - rewrite app_nil_r. now destruct info.
  - rewrite IH. simpl. now rewrite <- app_assoc.
Qed.

(** The loop over [xaddrs] ends without an exception exactly when every
    element has text. *)
Lemma xaddrs_loop_all_text (xaddrs : list element) (info : device_info) :
  Forall (fun x => text_of x <> None) xaddrs ->
  xaddrs_loop xaddrs info =
  (mk_info (Scopes info)
           (XAddrs info ++ map (fun x => strip (text_or_empty x)) xaddrs)
           (Manufacturer info) (Model info) (Hardware info)
           (Location info) (error info) (from info), None).
Proof.
  intros H. revert info.
  induction H as [|x xaddrs Hx _ IH]; intros info; simpl.
  - rewrite app_nil_r. now destruct info.
  - unfold text_or_empty. destruct (text_of x) as [t|]; [|now elim Hx].
    rewrite IH. simpl. now rewrite <- app_assoc.
Qed.

(** The loop stops at the first element without text and keeps what it
    appended before. *)
Lemma xaddrs_loop_stops (before after : list element) (x : element)
    (info : device_info) :
  Forall (fun y => text_of y <> None) before -> text_of x = None ->
  xaddrs_loop (before ++ x :: after) info =
  (mk_info (Scopes info)
           (XAddrs info ++ map (fun y => strip (text_or_empty y)) before)
           (Manufacturer info) (Model info) (Hardware info)
           (Location info) (error info) (from info),
   Some (AttributeError VNone "strip")).
Proof.
  intros H Hx. revert info.
  induction H as [|y before Hy _ IH]; intros info; simpl.
  - rewrite Hx, app_nil_r. now destruct info.
  - unfold text_or_empty. destruct (text_of y) as [t|]; [|now elim Hy].
    rewrite IH. simpl. now rewrite <- app_assoc.
Qed.

(** For a document whose [XAddrs] elements all have text, the parser
    returns one trimmed string per [Scopes] element and one per [XAddrs]
    element, in document order, and no error. *)
Lemma parse_probe_response_all_text
    (fromstring : string -> expat_error + element)
    (xml_data : string) (root : element) :
  fromstring xml_data = inr root ->
  Forall (fun x => text_of x <> None) (findall_descendants root ns_d "XAddrs") ->
  let info := parse_probe_response fromstring xml_data in
  Scopes info = map (fun s => strip (text_or_empty s))
                    (findall_descendants root ns_d "Scopes") /\
  XAddrs info = map (fun x => strip (text_or_empty x))
                    (findall_descendants root ns_d "XAddrs") /\
  error info = None.
Proof.
  intros E H. unfold parse_probe_response, try_block. rewrite E.
  rewrite scopes_loop_spec, (xaddrs_loop_all_text _ _ H). simpl. auto.
Qed.

Lemma parse_probe_response_all_text_witness :
  let info := parse_probe_response Samples.sample_fromstring "probe-match-full" in
  Scopes info = ["onvif://www.onvif.org/name/Cam";
                 "onvif://www.onvif.org/model/ABC123"] /\
  XAddrs info = ["http://192.168.1.68:8899/onvif/device_service";
                 "http://10.0.0.5/onvif/device_service"] /\
  error info = None.
Proof.
  apply (parse_probe_response_all_text Samples.sample_fromstring
           "probe-match-full" Samples.probe_match_full eq_refl).
  vm_compute. repeat constructor; discriminate.
Defined.

(** C4 at an input where the code falls short: a Probe-Match with one
    [Scopes] and two [XAddrs] elements, the second [XAddrs] empty.  The
    record has one address instead of two, an ["error"] entry, and none of
    the four scope fields. *)
Theorem parse_probe_response_empty_xaddrs :
  let info := parse_probe_response Samples.sample_fromstring "probe-match" in
  List.length (findall_descendants Samples.probe_match_empty_xaddrs ns_d "Scopes") = 1 /\
  List.length (findall_descendants Samples.probe_match_empty_xaddrs ns_d "XAddrs") = 2 /\
  Scopes info = ["onvif://www.onvif.org/name/Cam onvif://www.onvif.org/model/ABC123"] /\
  XAddrs info = ["http://192.168.1.68:8899/onvif/device_service"] /\
  error info = Some "'NoneType' object has no attribute 'strip'" /\
  Model info = None.
Proof.
  vm_compute. repeat split; reflexivity.
Qed.

Lemma ParseError_message_not_empty (x : expat_error) :
  exn_str (ParseError x) <> "".
Proof.
  unfold ParseError. simpl. destruct (err_reason x); discriminate.
Qed.

(** C5: for text that the XML parser rejects, [parse_probe_response]
    returns a record (it has no way to raise: the whole body is under
    [except Exception]) whose ["error"] entry is the parser's message,
    which is not empty; both lists are empty and no scope field is set. *)
Theorem parse_probe_response_malformed
    (fromstring : string -> expat_error + element)
    (xml_data : string) (x : expat_error) :
  fromstring xml_data = inl x ->
  let info := parse_probe_response fromstring xml_data in
  error info = Some (exn_str (ParseError x)) /\
  exn_str (ParseError x) <> "" /\
  Scopes info = [] /\ XAddrs info = [] /\
  Manufacturer info = None /\ Model info = None /\
  Hardware info = None /\ Location info = None.
Proof.
  intros E. unfold parse_probe_response, try_block. rewrite E. simpl.
  repeat split. apply ParseError_message_not_empty.
Qed.

Lemma parse_probe_response_malformed_witness :
  Samples.sample_fromstring "<e:Envelope"
    = inl (mk_expat_error "syntax error" 1 0) /\
  error (parse_probe_response Samples.sample_fromstring "<e:Envelope")
    = Some "syntax error: line 1, column 0".
Proof.
  split; [reflexivity|].
  exact (proj1 (parse_probe_response_malformed
                  Samples.sample_fromstring "<e:Envelope"
                  (mk_expat_error "syntax error" 1 0) eq_refl)).
Defined.

End ParserFacts.

(* ================================================================== *)
(** * onvif_discover.py: the probe and the receive loop *)
(* ================================================================== *)

Module DiscoveryFacts.
Import Py Discover StringFacts.

Lemma probe_text_inj (u u' : string) : probe_text u = probe_text u' -> u = u'.
Proof.
  unfold probe_text, message_id. intros H.
  apply append_inv_head in H. apply append_inv_tail in H.
  now apply append_inv_head in H.
Qed.

Section Runs.

Variable fromstring : string -> expat_error + element.
Variable decode_ignore : list Byte.byte -> string.

(** C1 (as the code has it): the correlation identifier is drawn once, when
    the module is loaded.  Every call of [discover_onvif_devices] in that
    process sends the text built then, with the MessageID of that one
    draw, and draws nothing; the text differs between two loads exactly
    when their uuids differ. *)
Theorem probe_drawn_at_load (p : process) (t1 t2 : Z)
    (s1 s2 : list recv_event) :
  let g := fst (load_module p) in
  let r1 := discover_onvif_devices fromstring decode_ignore g t1 s1
              (snd (load_module p)) in
  let r2 := discover_onvif_devices fromstring decode_ignore g t2 s2 (snd r1) in
  sent (fst r1) = probe_text (uuid_source p (uuid_drawn p)) /\
  sent (fst r2) = sent (fst r1) /\
  uuid_drawn (snd r2) = S (uuid_drawn p) /\
  (forall u u', probe_text u = probe_text u' <-> u = u').
Proof.
  simpl. repeat split; [apply probe_text_inj | now intros ->].
Qed.

(** The blocking times of a run: the waits of the events received, each
    shorter than the timeout, then one full timeout. *)
Lemma recv_loop_blocked (timeout : Z) (schedule : list recv_event) (st : scan) :
  exists n,
    n <= List.length schedule /\
    blocked (recv_loop fromstring decode_ignore timeout schedule st)
      = (blocked st ++ map wait_of (firstn n schedule) ++ [timeout])%list /\
    Forall (fun ev => (wait_of ev < timeout)%Z) (firstn n schedule) /\
    (n = List.length schedule \/
     exists ev, nth_error schedule n = Some ev /\ (timeout <= wait_of ev)%Z).
Proof.
  revert st. induction schedule as [|ev rest IH]; intros st; simpl.
  - exists 0. simpl. repeat split; auto.
  - destruct (Z.leb_spec timeout (wait_of ev)) as [L|L].
    + exists 0. simpl. repeat split; auto with arith.
      right. exists ev. auto.
    + assert (forall st', exists n,
                 S n <= S (List.length rest) /\
                 blocked (recv_loop fromstring decode_ignore timeout rest st')
                 = (blocked st' ++ map wait_of (firstn n rest) ++ [timeout])%list /\
                 Forall (fun e => (wait_of e < timeout)%Z) (ev :: firstn n rest) /\
                 (S n = S (List.length rest) \/
                  exists e, nth_error rest n = Some e /\ (timeout <= wait_of e)%Z))
        as IH'.
      { intros st'. destruct (IH st') as (n & Hn & Hb & Hf & Hl).
        exists n. repeat split; auto with arith.
        destruct Hl as [->|Hl]; auto. }
      destruct ev as [w data addr|w e]; simpl in *.
      * destruct (IH' (mk_scan
                         (results st ++
                          [set_from (parse_probe_response fromstring (decode_ignore data))
                                    (fst addr)])
                         (blocked st ++ [w])))
          as (n & Hn & Hb & Hf & Hl).
        exists (S n). simpl in *. rewrite Hb, <- app_assoc. auto.
      * destruct (IH' (mk_scan (results st) (blocked st ++ [w])))
          as (n & Hn & Hb & Hf & Hl).
        exists (S n). simpl in *. rewrite Hb, <- app_assoc. auto.
Qed.

Lemma sum_app (a b : list Z) :
  fold_right Z.add 0%Z (a ++ b)
  = (fold_right Z.add 0 a + fold_right Z.add 0 b)%Z.
Proof.
  induction a as [|x a IH]; simpl; [reflexivity | rewrite IH; lia].
Qed.

(** C3 (as the code has it): for a positive timeout, the socket timeout
    bounds each [recvfrom] call on its own.  No call blocks longer than
    the timeout; the loop ends at the first call that sees nothing for the
    whole timeout; the receive window is the timeout plus the waits of all
    events received before, so it is the timeout when nothing answers. *)
Theorem receive_window_spec (g : module_globals) (timeout : Z)
    (schedule : list recv_event) (p : process) :
  (0 < timeout)%Z ->
  let d := fst (discover_onvif_devices fromstring decode_ignore g timeout
                  schedule p) in
  Forall (fun b => (b <= timeout)%Z) (blocked (the_scan d)) /\
  exists n,
    n <= List.length schedule /\
    blocked (the_scan d) = (map wait_of (firstn n schedule) ++ [timeout])%list /\
    (n = List.length schedule \/
     exists ev, nth_error schedule n = Some ev /\ (timeout <= wait_of ev)%Z) /\
    receive_window d
      = (fold_right Z.add 0 (map wait_of (firstn n schedule)) + timeout)%Z /\
    (schedule = [] -> receive_window d = timeout).
Proof.
  intros _. simpl. unfold receive_window. simpl.
  destruct (recv_loop_blocked timeout schedule (mk_scan [] []))
    as (n & Hn & Hb & Hf & Hl).
  simpl in Hb. rewrite Hb. split.
  - apply Forall_app. split.
    + apply Forall_map. eapply Forall_impl; [|exact Hf]. simpl. intros; lia.
    + repeat constructor. lia.
  - exists n. repeat split; auto.
    + rewrite sum_app. simpl. lia.
    + intros ->. destruct n; simpl; lia.
Qed.

End Runs.

(** C1 (as the spec has it) fails: two calls in one process, with a uuid
    source that never repeats, send the same text with the same
    MessageID. *)
Lemma second_probe_repeats_message_id :
  let r := Samples.two_invocations Samples.sample_fromstring
             Samples.sample_decode Samples.fresh_process 5 5 [] [] in
  sent (fst r) = probe_text "0f8fad5b-d9cb-469f-a165-708677289500" /\
  sent (snd r) = probe_text "0f8fad5b-d9cb-469f-a165-708677289500" /\
  String.eqb (Samples.sample_uuids 0) (Samples.sample_uuids 1) = false.
Proof.
  vm_compute. repeat split; reflexivity.
Qed.

Lemma receive_window_spec_witness :
  (0 < 5)%Z /\
  let d := fst (discover_onvif_devices Samples.sample_fromstring
                  Samples.sample_decode (mk_globals (probe_text "u")) 5
                  Samples.slow_answers Samples.fresh_process) in
  Forall (fun b => (b <= 5)%Z) (blocked (the_scan d)) /\
  exists n,
    n <= List.length Samples.slow_answers /\
    blocked (the_scan d)
      = (map wait_of (firstn n Samples.slow_answers) ++ [5%Z])%list /\
    (n = List.length Samples.slow_answers \/
     exists ev, nth_error Samples.slow_answers n = Some ev /\
                (5 <= wait_of ev)%Z) /\
    receive_window d
      = (fold_right Z.add 0 (map wait_of (firstn n Samples.slow_answers)) + 5)%Z /\
    (Samples.slow_answers = [] -> receive_window d = 5%Z).
Proof.
  split; [reflexivity|].
  apply (receive_window_spec Samples.sample_fromstring Samples.sample_decode
           (mk_globals (probe_text "u")) 5 Samples.slow_answers
           Samples.fresh_process).
  reflexivity.
Defined.

(** C3 (as the spec has it) fails: with a timeout of 5 and three answers
    that come 4 apart, the calls block for 4, 4, 4 and 5, and the receive
    window is 17. *)
Lemma receive_window_exceeds_timeout :
  let d := fst (discover_onvif_devices Samples.sample_fromstring
                  Samples.sample_decode (mk_globals (probe_text "u")) 5
                  Samples.slow_answers Samples.fresh_process) in
  blocked (the_scan d) = [4; 4; 4; 5]%Z /\
  receive_window d = 17%Z /\
  (5 <? receive_window d)%Z = true /\
  List.length (results (the_scan d)) = 3.
Proof.
  vm_compute. repeat split; reflexivity.
Qed.

End DiscoveryFacts.

(* ================================================================== *)
(** * Facts about dicts *)
(* ================================================================== *)

Module DictFacts.
Import Py.

Lemma key_eqb_str (k : pyval) (a : string) :
  key_eqb k (VStr a) = true -> k = VStr a.
Proof.
  destruct k; simpl; try discriminate.
  intros H. apply String.eqb_eq in H. now subst.
Qed.

(** Reading a string key after writing a string key. *)
Lemma dict_get_set (d : dict) (a b : string) (v : pyval) :
  dict_get (dict_set d (VStr a) v) (VStr b)
  = if String.eqb a b then Some v else dict_get d (VStr b).
Proof.
  induction d as [|[k' v'] d IH]; simpl.
  - reflexivity.
  - destruct (key_eqb k' (VStr a)) eqn:E; simpl.
    + apply key_eqb_str in E. subst k'. simpl.
      now destruct (String.eqb a b).
    + rewrite IH. destruct (String.eqb_spec a b) as [<-|N].
      * now rewrite E.
      * reflexivity.
Qed.

Lemma dict_get_set_same (d : dict) (a : string) (v : pyval) :
  dict_get (dict_set d (VStr a) v) (VStr a) = Some v.
Proof. now rewrite dict_get_set, String.eqb_refl. Qed.

Lemma dict_get_set_other (d : dict) (a b : string) (v : pyval) :
  a <> b -> dict_get (dict_set d (VStr a) v) (VStr b) = dict_get d (VStr b).
Proof.
  intros N. rewrite dict_get_set.
  now destruct (String.eqb_spec a b).
Qed.

End DictFacts.

(* ================================================================== *)
(** * onvif_info.py: the call boundary and the catalog pass *)
(* ================================================================== *)

Module WalkFacts.
Import Py Info DictFacts.

Lemma same_except_refl (names : list string) (s : Summary) :
  same_except names s s.
Proof. unfold same_except. auto. Qed.

Lemma same_except_trans (names : list string) (s1 s2 s3 : Summary) :
  same_except names s1 s2 -> same_except names s2 s3 ->
  same_except names s1 s3.
Proof.
  unfold same_except. intros (A1 & A2 & A3 & A4 & A5) (B1 & B2 & B3 & B4 & B5).
  repeat split; try congruence.
  intros k Hk. now rewrite B5, A5.
Qed.

Lemma same_except_weaken (names names' : list string) (s s' : Summary) :
  (forall k, In k names -> In k names') ->
  same_except names s s' -> same_except names' s s'.
Proof.
  unfold same_except. intros I (A1 & A2 & A3 & A4 & A5).
  repeat split; auto.
Qed.

Lemma same_except_set_service (s : Summary) (name : string) (v : dict) :
  same_except [name] s (set_service s name v).
Proof.
  unfold same_except, set_service. simpl. repeat split; auto.
  intros k Hk. apply dict_get_set_other. intros ->. apply Hk. now left.
Qed.

Lemma nothing_to_derive_set_service (s : Summary) (c : Context)
    (name : string) (v : dict) :
  name <> "media_GetProfiles" ->
  nothing_to_derive s c -> nothing_to_derive (set_service s name v) c.
Proof.
  unfold nothing_to_derive, set_service. simpl. intros N (A & B).
  split; [|exact B]. now rewrite dict_get_set_other.
Qed.

Section Walk.

Variables W raw : Type.
Variable serialize_object : raw -> py_exn + pyval.
Variable json_roundtrip : raw -> py_exn + pyval.
Variable py_str : raw -> py_exn + string.

Local Abbreviation serialize_obj :=
  (Info.serialize_obj raw serialize_object json_roundtrip py_str).
Local Abbreviation safe_call :=
  (Info.safe_call W raw serialize_object json_roundtrip py_str).
Local Abbreviation run_call :=
  (Info.run_call W raw serialize_object json_roundtrip py_str).
Local Abbreviation run_calls :=
  (Info.run_calls W raw serialize_object json_roundtrip py_str).
Local Abbreviation run_service :=
  (Info.run_service W raw serialize_object json_roundtrip py_str).
Local Abbreviation run_catalog :=
  (Info.run_catalog W raw serialize_object json_roundtrip py_str).
Local Abbreviation stream_loop :=
  (Info.stream_loop W raw serialize_object json_roundtrip py_str).
Local Abbreviation stream_pass :=
  (Info.stream_pass W raw serialize_object json_roundtrip py_str).
Local Abbreviation main :=
  (Info.main W raw serialize_object json_roundtrip py_str).
Local Abbreviation stream_outcome :=
  (Info.stream_outcome W raw serialize_object json_roundtrip py_str).
Local Abbreviation service_entry := (Info.service_entry W raw).

Lemma bind_inr {A B : Type} (m : M W A) (k : A -> M W B) (w w' : W) (a : A) :
  m w = (inr a, w') -> bind W m k w = k a w'.
Proof. unfold bind. now intros ->. Qed.

(** What [safe_call] returns, case by case. *)
Lemma safe_call_cases (svc : service W raw) (method_name : string)
    (args : dict) (w : W) :
  exists out w',
    safe_call svc method_name args w = (inr out, w') /\
    match getattr svc method_name with
    | inl e => out = lookup_failure method_name e /\ w' = w
    | inr meth =>
        match meth [] args w with
        | (inl e, w1) => out = failure e /\ w' = w1
        | (inr res, w1) =>
            w' = w1 /\
            match serialize_obj res with
            | inr v => out = success v
            | inl e => out = failure e
            end
        end
    end.
Proof.
  unfold Info.safe_call. destruct (getattr svc method_name) as [e|meth].
  - eexists _, _. split; [reflexivity|]. now split.
  - assert ((if truthy (VDict args) then meth [] args else meth [] [])
            = meth [] args) as -> by now destruct args.
    unfold try_except, bind, lift, ret.
    destruct (meth [] args w) as [[e|res] w1].
    + eexists _, _. split; [reflexivity|]. now split.
    + destruct (serialize_obj res) as [e|v];
        (eexists _, _; split; [reflexivity|]; now split).
Qed.

Lemma safe_call_total (svc : service W raw) (method_name : string)
    (args : dict) (w : W) :
  exists out w',
    safe_call svc method_name args w = (inr out, w') /\
    call_outcome (VDict out).
Proof.
  destruct (safe_call_cases svc method_name args w) as (out & w' & E & H).
  exists out, w'. split; [exact E|].
  destruct (getattr svc method_name) as [e|meth].
  - destruct H as [-> _]. constructor.
  - destruct (meth [] args w) as [[e|res] w1].
    + destruct H as [-> _]. constructor.
    + destruct H as [_ H]. destruct (serialize_obj res); subst out; constructor.
Qed.

(** With nothing to derive tokens from, the imaging branch finds none. *)
Lemma imaging_tokens_none (st : loop_state) (w : W) :
  nothing_to_derive (summary st) (context st) ->
  imaging_tokens W st w = (inr [], w).
Proof.
  intros (A & B). unfold imaging_tokens, get_default.
  rewrite B, A. reflexivity.
Qed.

Lemma run_call_spec (svc_name : string) (svc : service W raw)
    (m : string) (args : dict) (st : loop_state) (w : W) :
  svc_name <> "media_GetProfiles" ->
  nothing_to_derive (summary st) (context st) ->
  exists st' w' o,
    run_call svc_name svc (m, args) st w = (inr st', w') /\
    call_outcome o /\
    svc_result st' = dict_set (svc_result st) (VStr m) o /\
    nothing_to_derive (summary st') (context st') /\
    same_except [svc_name] (summary st) (summary st') /\
    (svc_name <> "media" -> profiles (context st') = profiles (context st)).
Proof.
  intros N H. unfold Info.run_call.
  destruct (String.eqb svc_name "media" && String.eqb m "GetProfiles") eqn:C1.
  - apply andb_prop in C1. destruct C1 as [C1 _]. apply String.eqb_eq in C1.
    destruct (safe_call_total svc m args w) as (out & w' & E & O).
    rewrite (bind_inr _ _ _ _ _ E). unfold ret.
    eexists _, w', (VDict out). split; [reflexivity|]. simpl.
    split; [exact O|]. split; [reflexivity|].
    split; [|split].
    + destruct H as [A B]. split; [exact A|].
      now destruct (profile_tokens out).
    + apply same_except_refl.
    + intros N'. now elim N'.
  - destruct (String.eqb svc_name "imaging" && String.eqb m "GetImagingSettings")
      eqn:C2.
    + rewrite (bind_inr _ _ _ _ _ (imaging_tokens_none st w H)). simpl.
      unfold ret. eexists _, w, (VDict prerequisite_missing).
      split; [reflexivity|]. simpl.
      split; [constructor|]. split; [reflexivity|].
      split; [|split].
      * apply nothing_to_derive_set_service; [exact N|].
        destruct H as [A B]. now split.
      * apply same_except_set_service.
      * reflexivity.
    + destruct (safe_call_total svc m args w) as (out & w' & E & O).
      rewrite (bind_inr _ _ _ _ _ E). unfold ret.
      eexists _, w', (VDict out). split; [reflexivity|]. simpl.
      split; [exact O|]. split; [reflexivity|].
      split; [exact H|]. split; [apply same_except_refl | reflexivity].
Qed.

Lemma run_calls_spec (svc_name : string) (svc : service W raw)
    (calls : list (string * dict)) (st : loop_state) (w : W) :
  svc_name <> "media_GetProfiles" ->
  nothing_to_derive (summary st) (context st) ->
  exists st' w',
    run_calls svc_name svc calls st w = (inr st', w') /\
    nothing_to_derive (summary st') (context st') /\
    same_except [svc_name] (summary st) (summary st') /\
    (svc_name <> "media" -> profiles (context st') = profiles (context st)) /\
    (forall k, ~ In k (map fst calls) ->
               dict_get (svc_result st') (VStr k)
               = dict_get (svc_result st) (VStr k)) /\
    (forall k o, dict_get (svc_result st) (VStr k) = Some o -> call_outcome o ->
                 exists o', dict_get (svc_result st') (VStr k) = Some o' /\
                            call_outcome o') /\
    (forall k, In k (map fst calls) ->
               exists o, dict_get (svc_result st') (VStr k) = Some o /\
                         call_outcome o).
Proof.
  intros N. revert st w.
  induction calls as [|[m args] calls IH]; intros st w H; simpl.
  - exists st, w. unfold ret. split; [reflexivity|]. split; [exact H|].
    split; [apply same_except_refl|]. split; [reflexivity|].
    split; [reflexivity|]. split.
    + intros k o E O. now exists o.
    + intros k [].
  - destruct (run_call_spec svc_name svc m args st w N H)
      as (st1 & w1 & o & E1 & O & R1 & H1 & S1 & P1).
    rewrite (bind_inr _ _ _ _ _ E1).
    destruct (IH st1 w1 H1) as (st' & w' & E & H' & S' & P' & K1 & K2 & K3).
    exists st', w'. split; [exact E|]. split; [exact H'|].
    split; [now apply same_except_trans with (summary st1)|].
    split; [intros Nm; now rewrite P', P1|].
    split; [|split].
    + intros k Hk. rewrite K1 by tauto. rewrite R1.
      apply dict_get_set_other. tauto.
    + intros k o0 E0 O0.
      destruct (String.eqb_spec m k) as [<-|Nk].
      * apply (K2 m o); [|exact O]. rewrite R1. apply dict_get_set_same.
      * apply (K2 k o0); [|exact O0]. rewrite R1.
        now rewrite dict_get_set_other.
    + intros k [<-|Hk].
      * apply (K2 m o); [|exact O]. rewrite R1. apply dict_get_set_same.
      * now apply K3.
Qed.


Lemma run_service_spec (cam : ONVIFCamera W raw) (svc_name : string)
    (calls : list (string * dict)) (s : Summary) (c : Context) (w : W) :
  svc_name <> "media_GetProfiles" ->
  nothing_to_derive s c ->
  exists s' c' w',
    run_service cam (svc_name, calls) (s, c) w = (inr (s', c'), w') /\
    nothing_to_derive s' c' /\
    same_except [svc_name] s s' /\
    (svc_name <> "media" -> profiles c' = profiles c) /\
    exists entry,
      dict_get (services s') (VStr svc_name) = Some (VDict entry) /\
      service_entry cam svc_name calls entry.
Proof.
  intros N H. unfold Info.run_service, Info.service_entry.
  destruct (service_creators cam svc_name) as [[e|svc]|].
  - eexists _, c, w. split; [reflexivity|].
    split; [now apply nothing_to_derive_set_service|].
    split; [apply same_except_set_service|]. split; [reflexivity|].
    eexists. split; [apply dict_get_set_same | reflexivity].
  - destruct (run_calls_spec svc_name svc calls (mk_loop s c []) w N H)
      as (st' & w' & E & H' & S' & P' & K1 & K2 & K3).
    rewrite (bind_inr _ _ _ _ _ E). unfold ret.
    eexists _, _, w'. split; [reflexivity|].
    split; [now apply nothing_to_derive_set_service|].
    split; [eapply same_except_trans;
            [exact S' | apply same_except_set_service]|].
    split; [exact P'|].
    exists (svc_result st'). split; [apply dict_get_set_same|].
    split; [exact K3|].
    intros k v Hk.
    destruct (in_dec string_dec k (map fst calls)) as [I|I]; [exact I|].
    rewrite (K1 k I) in Hk. discriminate.
  - eexists _, c, w. split; [reflexivity|].
    split; [now apply nothing_to_derive_set_service|].
    split; [apply same_except_set_service|]. split; [reflexivity|].
    eexists. split; [apply dict_get_set_same | reflexivity].
Qed.

Lemma run_catalog_spec (cam : ONVIFCamera W raw)
    (catalog : list (string * list (string * dict))) :
  forall (s : Summary) (c : Context) (w : W),
    NoDup (map fst catalog) ->
    ~ In "media_GetProfiles" (map fst catalog) ->
    nothing_to_derive s c ->
    exists s' c' w',
      run_catalog cam catalog (s, c) w = (inr (s', c'), w') /\
      nothing_to_derive s' c' /\
      same_except (map fst catalog) s s' /\
      (~ In "media" (map fst catalog) -> profiles c' = profiles c) /\
      forall svc calls,
        In (svc, calls) catalog ->
        exists entry,
          dict_get (services s') (VStr svc) = Some (VDict entry) /\
          service_entry cam svc calls entry.
Proof.
  induction catalog as [|[svc_name calls] catalog IH]; intros s c w D N H; simpl.
  - exists s, c, w. unfold ret. split; [reflexivity|]. split; [exact H|].
    split; [apply same_except_refl|]. split; [reflexivity|]. intros ? ? [].
  - simpl in D, N. inversion D as [|? ? D1 D2]; subst.
    destruct (run_service_spec cam svc_name calls s c w)
      as (s1 & c1 & w1 & E1 & H1 & S1 & P1 & entry & G1 & T1);
      [tauto | exact H |].
    rewrite (bind_inr _ _ _ _ _ E1).
    destruct (IH s1 c1 w1 D2) as (s' & c' & w' & E & H' & S' & P' & K);
      [tauto | exact H1 |].
    exists s', c', w'. split; [exact E|]. split; [exact H'|].
    split; [|split].
    + apply same_except_trans with s1.
      * eapply same_except_weaken; [|exact S1]. simpl. tauto.
      * eapply same_except_weaken; [|exact S']. simpl. tauto.
    + intros Nm. rewrite P', P1; tauto.
    + intros svc calls' [[= <- <-]|I].
      * exists entry. split; [|exact T1].
        destruct S' as (_ & _ & _ & _ & S'). now rewrite S'.
      * now apply K.
Qed.

Lemma bind_inr_inv {A B : Type} (m : M W A) (k : A -> M W B) (w w' : W)
    (b : B) :
  bind W m k w = (inr b, w') ->
  exists a w1, m w = (inr a, w1) /\ k a w1 = (inr b, w').
Proof.
  unfold bind. destruct (m w) as [[e|a] w1]; [discriminate|].
  intros H. now exists a, w1.
Qed.

(** One turn of the stream pass for a string token. *)
Lemma stream_turn (media : service W raw) (token : string) (stream_map : dict)
    (rest : list pyval) (w : W) :
  exists v w1,
    stream_outcome media (VStr token) w v w1 /\
    stream_loop media (VStr token :: rest) stream_map w
    = stream_loop media rest (dict_set stream_map (VStr token) v) w1.
Proof.
  simpl. unfold bind at 1. unfold try_except, bind, lift, set_item, ret. simpl.
  destruct (getattr media "GetStreamUri") as [e|meth] eqn:G.
  - eexists _, w. split; [eapply stream_lookup_failure; eauto | reflexivity].
  - destruct (meth [stream_request (VStr token)] [] w) as [[e|resp] w1] eqn:C.
    + eexists _, w1. split; [eapply stream_call_failure; eauto | reflexivity].
    + destruct (serialize_obj resp) as [e|v] eqn:Z.
      * eexists _, w1.
        split; [eapply stream_normalize_failure; eauto | reflexivity].
      * eexists _, w1. split; [eapply stream_success; eauto | reflexivity].
Qed.

Lemma stream_pass_total (cam : ONVIFCamera W raw) (s : Summary) (c : Context)
    (w : W) :
  exists s' w',
    stream_pass cam s c w = (inr s', w') /\
    services s' = services s /\
    (errors s' = errors s \/
     exists e, errors s' = (errors s ++ [stream_pass_error e])%list).
Proof.
  unfold Info.stream_pass, try_except.
  match goal with |- context [match ?m w with _ => _ end] =>
    destruct (m w) as [[e|a] w'] eqn:E end.
  - eexists _, w'. split; [reflexivity|]. simpl. split; [reflexivity|].
    right. now exists e.
  - exists a, w'. split; [reflexivity|].
    destruct (truthy (VList (profiles c))).
    + apply bind_inr_inv in E. destruct E as (media & w1 & _ & E).
      apply bind_inr_inv in E. destruct E as (sm & w2 & _ & E).
      injection E as <- _. simpl. auto.
    + injection E as <- _. auto.
Qed.

Lemma device_summary_pass_keeps (s : Summary) :
  services (device_summary_pass s) = services s /\
  errors (device_summary_pass s) = errors s /\
  stream_uris (device_summary_pass s) = stream_uris s.
Proof.
  unfold device_summary_pass.
  destruct (getattr_get _); simpl; auto.
Qed.

Lemma catalog_names_distinct : NoDup (map fst SERVICE_METHODS).
Proof.
  simpl. repeat constructor; simpl; intuition discriminate.
Qed.

Lemma catalog_has_no_media_GetProfiles :
  ~ In "media_GetProfiles" (map fst SERVICE_METHODS).
Proof. simpl. intuition discriminate. Qed.

(** The stages of a run of [main] that got a camera object. *)
Lemma main_stages (cam : ONVIFCamera W raw) (w : W) :
  exists gsv w1 s2 c2 w2 s3 w3,
    let s1 := set_service (mk_summary (IP ++ ":" ++ PORT) [] [] None None)
                "device_GetServices" gsv in
    safe_call (devicemgmt cam) "GetServices"
      [(VStr "IncludeCapability", VBool true)] w = (inr gsv, w1) /\
    run_catalog cam SERVICE_METHODS (s1, mk_context [] []) w1
      = (inr (s2, c2), w2) /\
    nothing_to_derive s1 (mk_context [] []) /\
    same_except (map fst SERVICE_METHODS) s1 s2 /\
    (forall svc calls,
        In (svc, calls) SERVICE_METHODS ->
        exists entry,
          dict_get (services s2) (VStr svc) = Some (VDict entry) /\
          service_entry cam svc calls entry) /\
    stream_pass cam s2 c2 w2 = (inr s3, w3) /\
    services s3 = services s2 /\
    (errors s3 = errors s2 \/
     exists e, errors s3 = (errors s2 ++ [stream_pass_error e])%list) /\
    main (inr cam) w = (inr (Finished (device_summary_pass s3)), w3).
Proof.
  destruct (safe_call_total (devicemgmt cam) "GetServices"
              [(VStr "IncludeCapability", VBool true)] w)
    as (gsv & w1 & E0 & _).
  set (s1 := set_service (mk_summary (IP ++ ":" ++ PORT) [] [] None None)
               "device_GetServices" gsv).
  assert (nothing_to_derive s1 (mk_context [] [])) as H1
      by (split; reflexivity).
  destruct (run_catalog_spec cam SERVICE_METHODS s1 (mk_context [] []) w1
              catalog_names_distinct catalog_has_no_media_GetProfiles H1)
    as (s2 & c2 & w2 & E1 & _ & S2 & _ & K).
  destruct (stream_pass_total cam s2 c2 w2) as (s3 & w3 & E2 & V & R).
  exists gsv, w1, s2, c2, w2, s3, w3. simpl.
  split; [exact E0|]. split; [exact E1|]. split; [exact H1|].
  split; [exact S2|]. split; [exact K|]. split; [exact E2|].
  split; [exact V|]. split; [exact R|].
  unfold Info.main.
  match goal with |- bind W ?m ?k w = _ =>
    assert (m w = (inr s1, w1)) as T end.
  { unfold try_except. simpl. rewrite (bind_inr _ _ _ _ _ E0). reflexivity. }
  rewrite (bind_inr _ _ _ _ _ T).
  rewrite (bind_inr _ _ _ _ _ E1). simpl.
  rewrite (bind_inr _ _ _ _ _ E2). reflexivity.
Qed.


(** The media category: the profile tokens in the context after it are
    those of the [GetProfiles] outcome that its entry holds. *)
Lemma run_media_profiles (cam : ONVIFCamera W raw) (s s' : Summary)
    (c c' : Context) (w w' : W) (entry out : dict) :
  run_service cam
    ("media", [("GetProfiles", []); ("GetServiceCapabilities", [])])
    (s, c) w = (inr (s', c'), w') ->
  dict_get (services s') (VStr "media") = Some (VDict entry) ->
  dict_get entry (VStr "GetProfiles") = Some (VDict out) ->
  exists media,
    create_media_service cam = inr media /\
    profiles c' = match profile_tokens out with
                  | Some tokens => tokens
                  | None => profiles c
                  end.
Proof.
  unfold Info.run_service.
  change (service_creators cam "media") with (Some (create_media_service cam)).
  destruct (create_media_service cam) as [e|media].
  - intros R G1 G2. unfold ret in R. injection R as <- <- <-.
    unfold set_service in G1. simpl in G1.
    rewrite dict_get_set_same in G1. injection G1 as <-. discriminate.
  - intros R G1 G2. exists media. split; [reflexivity|].
    simpl in R. unfold Info.run_call in R. simpl in R.
    apply bind_inr_inv in R. destruct R as (st2 & w2 & R & R3).
    apply bind_inr_inv in R. destruct R as (st1 & w1 & R1 & R2).
    apply bind_inr_inv in R1. destruct R1 as (o0 & w0 & _ & R1).
    apply bind_inr_inv in R2. destruct R2 as (st2' & w2' & R2 & R2').
    apply bind_inr_inv in R2. destruct R2 as (o1 & w1' & _ & R2).
    unfold ret in R1, R2, R2', R3.
    injection R1 as <- _. injection R2 as <- _. injection R2' as <- _.
    injection R3 as <- <- _. simpl in *.
    unfold set_service in G1. simpl in G1.
    rewrite dict_get_set_same in G1. injection G1 as <-.
    simpl in G2. injection G2 as <-.
    now destruct (profile_tokens o0).
Qed.

(** After the catalog pass of [SERVICE_METHODS], started without profile
    tokens, the context holds the tokens of the [GetProfiles] outcome in
    the media entry of the report. *)
Lemma catalog_profiles (cam : ONVIFCamera W raw) (s s2 : Summary)
    (c c2 : Context) (w w2 : W) (entry out : dict) :
  nothing_to_derive s c -> profiles c = [] ->
  run_catalog cam SERVICE_METHODS (s, c) w = (inr (s2, c2), w2) ->
  dict_get (services s2) (VStr "media") = Some (VDict entry) ->
  dict_get entry (VStr "GetProfiles") = Some (VDict out) ->
  exists media,
    create_media_service cam = inr media /\
    profiles c2 = match profile_tokens out with
                  | Some tokens => tokens
                  | None => []
                  end.
Proof.
  intros H P R G1 G2.
  remember [ ("imaging", [("GetServiceCapabilities", []:dict); ("GetImagingSettings", [])]);
             ("ptz", [("GetServiceCapabilities", []); ("GetNodes", [])]);
             ("events", [("GetServiceCapabilities", [])]) ] as rest eqn:Hrest.
  assert (NoDup (map fst rest) /\ ~ In "media_GetProfiles" (map fst rest) /\
          ~ In "media" (map fst rest)) as (D & N1 & N2).
  { subst rest. simpl. split; [|split]; try (intuition discriminate).
    repeat constructor; simpl; intuition discriminate. }
  replace SERVICE_METHODS with
    (nth 0 SERVICE_METHODS ("", []) :: nth 1 SERVICE_METHODS ("", []) :: rest)
    in R by (subst rest; reflexivity).
  cbn [Info.run_catalog nth SERVICE_METHODS] in R.
  apply bind_inr_inv in R. destruct R as ([sa ca] & wa & Ea & R).
  apply bind_inr_inv in R. destruct R as ([sb cb] & wb & Eb & R).
  match type of Ea with run_service cam (?n, ?l) _ _ = _ =>
    destruct (run_service_spec cam n l s c w) as
      (sa' & ca' & wa' & Ea' & Ha & _ & Pa & _); [discriminate | exact H |] end.
  pose proof (eq_trans (eq_sym Ea') Ea) as Qa. injection Qa as -> -> ->.
  match type of Eb with run_service cam (?n, ?l) _ _ = _ =>
    destruct (run_service_spec cam n l sa ca wa) as
      (sb' & cb' & wb' & Eb' & Hb & _ & _ & _); [discriminate | exact Ha |] end.
  pose proof (eq_trans (eq_sym Eb') Eb) as Qb. injection Qb as -> -> ->.
  destruct (run_catalog_spec cam rest sb cb wb D N1 Hb)
    as (sc & cc & wc & Ec & _ & Sc & Pc & _).
  rewrite Ec in R. injection R as <- <- <-.
  destruct Sc as (_ & _ & _ & _ & Sc).
  rewrite (Sc "media" N2) in G1.
  destruct (run_media_profiles cam sa sb ca cb wa wb entry out Eb G1 G2)
    as (media & M & Q).
  exists media. split; [exact M|].
  rewrite (Pc N2), Q, Pa by discriminate. now rewrite P.
Qed.


(** The imaging category, entered with nothing to derive tokens from:
    its entry holds the note for [GetImagingSettings]. *)
Lemma run_imaging_note (cam : ONVIFCamera W raw) (svc : service W raw)
    (s s' : Summary) (c c' : Context) (w w' : W) :
  nothing_to_derive s c ->
  create_imaging_service cam = inr svc ->
  run_service cam
    ("imaging", [("GetServiceCapabilities", []); ("GetImagingSettings", [])])
    (s, c) w = (inr (s', c'), w') ->
  exists out,
    dict_get (services s') (VStr "imaging")
    = Some (VDict [ (VStr "GetServiceCapabilities", VDict out);
                    (VStr "GetImagingSettings", VDict prerequisite_missing) ]) /\
    safe_call svc "GetServiceCapabilities" [] w = (inr out, w').
Proof.
  intros H C R. unfold Info.run_service in R.
  change (service_creators cam "imaging")
    with (Some (create_imaging_service cam)) in R.
  rewrite C in R. simpl in R. unfold Info.run_call in R. simpl in R.
  apply bind_inr_inv in R. destruct R as (st2 & w2 & R & R3).
  apply bind_inr_inv in R. destruct R as (st1 & w1 & R1 & R2).
  apply bind_inr_inv in R1. destruct R1 as (o0 & w0 & E0 & R1).
  unfold ret in R1. injection R1 as <- <-.
  apply bind_inr_inv in R2. destruct R2 as (st2' & w2' & R2 & R2').
  unfold ret in R2'. injection R2' as <- <-.
  apply bind_inr_inv in R2. destruct R2 as (tokens & wt & T & R2).
  rewrite imaging_tokens_none in T by exact H.
  injection T as <- <-. simpl in R2. unfold ret in R2, R3.
  injection R2 as <- <-. injection R3 as <- <- <-.
  exists o0. split; [|exact E0].
  unfold set_service. simpl. now rewrite dict_get_set_same.
Qed.

(** Whatever the device answers to [GetProfiles], a run on a camera with
    an imaging session records the note for [GetImagingSettings]: the
    branch that would derive video-source tokens never finds any. *)
Lemma imaging_settings_always_noted (cam : ONVIFCamera W raw)
    (svc : service W raw) (w : W) :
  create_imaging_service cam = inr svc ->
  exists report w' entry,
    main (inr cam) w = (inr (Finished report), w') /\
    dict_get (services report) (VStr "imaging") = Some (VDict entry) /\
    dict_get entry (VStr "GetImagingSettings")
      = Some (VDict prerequisite_missing).
Proof.
  intros C.
  destruct (main_stages cam w)
    as (gsv & wa & s2 & c2 & wb & s3 & w3 & _ & R & H & _ & _ & _ & V & _ & E).
  destruct (device_summary_pass_keeps s3) as (Ks & _ & _).
  remember [ ("ptz", [("GetServiceCapabilities", []:dict); ("GetNodes", [])]);
             ("events", [("GetServiceCapabilities", [])]) ] as rest eqn:Hrest.
  assert (NoDup (map fst rest) /\ ~ In "media_GetProfiles" (map fst rest) /\
          ~ In "imaging" (map fst rest)) as (D & N1 & N2).
  { subst rest. simpl. split; [|split]; try (intuition discriminate).
    repeat constructor; simpl; intuition discriminate. }
  replace SERVICE_METHODS with
    (nth 0 SERVICE_METHODS ("", []) :: nth 1 SERVICE_METHODS ("", [])
     :: nth 2 SERVICE_METHODS ("", []) :: rest)
    in R by (subst rest; reflexivity).
  cbn [Info.run_catalog nth SERVICE_METHODS] in R.
  apply bind_inr_inv in R. destruct R as ([sa ca] & wa' & Ea & R).
  apply bind_inr_inv in R. destruct R as ([sb cb] & wb' & Eb & R).
  apply bind_inr_inv in R. destruct R as ([sc cc] & wc & Ec & R).
  match type of Ea with run_service cam (?n, ?l) ?x _ = _ =>
    destruct (run_service_spec cam n l (fst x) (snd x) wa) as
      (sa' & ca' & wa'' & Ea' & Ha & _); [discriminate | exact H |] end.
  pose proof (eq_trans (eq_sym Ea') Ea) as Qa. injection Qa as -> -> ->.
  match type of Eb with run_service cam (?n, ?l) _ _ = _ =>
    destruct (run_service_spec cam n l sa ca wa') as
      (sb' & cb' & wb'' & Eb' & Hb & _); [discriminate | exact Ha |] end.
  pose proof (eq_trans (eq_sym Eb') Eb) as Qb. injection Qb as -> -> ->.
  destruct (run_imaging_note cam svc sb sc cb cc wb' wc Hb C Ec)
    as (out & G & _).
  destruct (run_service_spec cam "imaging"
              [("GetServiceCapabilities", []); ("GetImagingSettings", [])]
              sb cb wb') as (sc' & cc' & wc' & Ec' & Hc & _);
    [discriminate | exact Hb |].
  pose proof (eq_trans (eq_sym Ec') Ec) as Qc. injection Qc as -> -> ->.
  destruct (run_catalog_spec cam rest sc cc wc D N1 Hc)
    as (sd & cd & wd & Ed & _ & Sd & _).
  rewrite Ed in R. injection R as <- <- <-.
  destruct Sd as (_ & _ & _ & _ & Sd).
  eexists _, w3, _. split; [exact E|].
  rewrite Ks, V, (Sd "imaging" N2). split; [exact G | reflexivity].
Qed.

(** C6 (as the code has it): [safe_call] always returns a dict and never
    raises.  A failed method lookup gives the record of the lookup: a
    fixed message with the method name under ["error"] and the text of
    the exception under ["exc"], with no traceback, and the device is not
    contacted.  An exception of the call or of the normalization gives the
    failure record with the message of the exception and the traceback.
    Otherwise the result is the success record with the normalized
    answer. *)
Theorem safe_call_contains_errors (svc : service W raw)
    (method_name : string) (args : dict) (w : W) :
  exists out w',
    safe_call svc method_name args w = (inr out, w') /\
    ((exists e, getattr svc method_name = inl e /\
                out = lookup_failure method_name e /\ w' = w) \/
     (exists meth e, getattr svc method_name = inr meth /\
                     meth [] args w = (inl e, w') /\ out = failure e) \/
     (exists meth res e, getattr svc method_name = inr meth /\
                         meth [] args w = (inr res, w') /\
                         serialize_obj res = inl e /\ out = failure e) \/
     (exists meth res v, getattr svc method_name = inr meth /\
                         meth [] args w = (inr res, w') /\
                         serialize_obj res = inr v /\ out = success v)).
Proof.
  destruct (safe_call_cases svc method_name args w) as (out & w' & E & H).
  exists out, w'. split; [exact E|].
  destruct (getattr svc method_name) as [e|meth].
  - left. exists e. tauto.
  - right. destruct (meth [] args w) as [[e|res] w1] eqn:C.
    + left. destruct H as [-> ->]. now exists meth, e.
    + right. destruct H as [-> H].
      destruct (serialize_obj res) as [e|v] eqn:Z.
      * left. now exists meth, res, e.
      * right. now exists meth, res, v.
Qed.

Lemma report_of_main (cam : ONVIFCamera W raw) (w : W) :
  exists report w',
    main (inr cam) w = (inr (Finished report), w') /\
    (errors report = [] \/ exists e, errors report = [stream_pass_error e]) /\
    forall svc calls,
      In (svc, calls) SERVICE_METHODS ->
      exists entry,
        dict_get (services report) (VStr svc) = Some (VDict entry) /\
        service_entry cam svc calls entry.
Proof.
  destruct (main_stages cam w)
    as (gsv & w1 & s2 & c2 & w2 & s3 & w3 & _ & _ & _ & S & K & _ & V & R & E).
  destruct (device_summary_pass_keeps s3) as (Ks & Ke & _).
  exists (device_summary_pass s3), w3. split; [exact E|]. split.
  - rewrite Ke. destruct S as (_ & Se & _). rewrite Se in R. exact R.
  - intros svc calls I. rewrite Ks, V. now apply K.
Qed.

(** C7 (as the code has it): a run that got its camera object ends with a
    report that has an entry for every configured service category.  For
    a category whose session was created, the entry holds an outcome (a
    success, a failure of the call or of the lookup, or the
    prerequisite-missing note) under every configured method name and
    under no other name.  For a category whose session creation raised,
    the entry is the one session failure record, and the methods of the
    category have no entries of their own. *)
Theorem every_category_reported (cam : ONVIFCamera W raw) (w : W) :
  exists report w',
    main (inr cam) w = (inr (Finished report), w') /\
    forall svc calls,
      In (svc, calls) SERVICE_METHODS ->
      exists entry,
        dict_get (services report) (VStr svc) = Some (VDict entry) /\
        match service_creators cam svc with
        | Some (inr _) =>
            (forall m, In m (map fst calls) ->
                       exists o, dict_get entry (VStr m) = Some o /\
                                 call_outcome o) /\
            (forall k v, dict_get entry (VStr k) = Some v ->
                         In k (map fst calls))
        | Some (inl e) =>
            entry = session_failure svc e /\
            forall m, In m (map fst calls) -> dict_get entry (VStr m) = None
        | None => False
        end.
Proof.
  destruct (report_of_main cam w) as (report & w' & E & _ & K).
  exists report, w'. split; [exact E|].
  intros svc calls I. destruct (K svc calls I) as (entry & G & T).
  exists entry. split; [exact G|].
  unfold Info.service_entry in T.
  destruct (service_creators cam svc) as [[e|s]|] eqn:C.
  - split; [exact T|]. subst entry. intros m Hm.
    unfold SERVICE_METHODS in I. simpl in I.
    repeat (destruct I as [I|I];
            [injection I as <- <-; simpl in Hm;
             repeat (destruct Hm as [<-|Hm]; [reflexivity|]); elim Hm|]).
    elim I.
  - exact T.
  - unfold SERVICE_METHODS in I. simpl in I.
    repeat (destruct I as [I|I]; [injection I as <- <-; discriminate C|]).
    elim I.
Qed.

(** C8 (as the code has it): when the session of one configured category
    cannot be created, the run still ends with a report.  The entry of
    that category, under its name among the services, is the session
    failure record: its ["error"] text names the category, it has no
    ["stage"] key, and nothing is appended to [errors] for it (the only
    stage that [errors] can hold at the end is the stream pass).  Every
    configured category, the others included, has its entry. *)
Theorem session_failure_contained (cam : ONVIFCamera W raw) (w : W)
    (svc : string) (calls : list (string * dict)) (e : py_exn) :
  In (svc, calls) SERVICE_METHODS ->
  service_creators cam svc = Some (inl e) ->
  exists report w',
    main (inr cam) w = (inr (Finished report), w') /\
    dict_get (services report) (VStr svc)
      = Some (VDict (session_failure svc e)) /\
    dict_get (session_failure svc e) (VStr "error")
      = Some (VStr ("falha ao criar servi" ++ c_cedilla ++ "o " ++ svc
                    ++ ": " ++ exn_str e)) /\
    dict_get (session_failure svc e) (VStr "stage") = None /\
    (errors report = [] \/ exists e', errors report = [stream_pass_error e']) /\
    forall svc' calls',
      In (svc', calls') SERVICE_METHODS ->
      exists entry,
        dict_get (services report) (VStr svc') = Some (VDict entry) /\
        service_entry cam svc' calls' entry.
Proof.
  intros I C.
  destruct (report_of_main cam w) as (report & w' & E & R & K).
  exists report, w'. split; [exact E|].
  destruct (K svc calls I) as (entry & G & T).
  unfold Info.service_entry in T. rewrite C in T. subst entry.
  split; [exact G|]. split; [reflexivity|]. split; [reflexivity|].
  split; [exact R | exact K].
Qed.

Lemma two_profile_tokens (r : pyval) (d1 d2 : dict) :
  r = VList [VDict d1; VDict d2] \/
  (exists d, r = VDict d /\
             dict_get d (VStr "Profile") = Some (VList [VDict d1; VDict d2])) ->
  dict_get d1 (VStr "token") = Some (VStr "P1") ->
  dict_get d2 (VStr "token") = Some (VStr "P2") ->
  profile_tokens (success r) = Some [VStr "P1"; VStr "P2"].
Proof.
  intros Hr H1 H2.
  assert (forall d t c, dict_get d (VStr "token") = Some (VStr (String c t)) ->
                        profile_token (VDict d) = VStr (String c t)) as T.
  { intros d t c H. unfold profile_token, get_default. simpl. now rewrite H. }
  assert (profiles_of (success r) = VList [VDict d1; VDict d2]) as P.
  { destruct Hr as [->|(d & -> & Hd)].
    - reflexivity.
    - unfold profiles_of.
      change (get_default (success (VDict d)) (VStr "result") VNone)
        with (VDict d).
      change (get_default (success (VDict d)) (VStr "result") (VList []))
        with (VDict d).
      assert (py_or (VDict d) (VDict d) = VDict d) as ->
          by (unfold py_or; now destruct (truthy _)).
      unfold dict_mem, get_default. now rewrite Hd. }
  unfold profile_tokens. rewrite P. simpl map.
  rewrite (T d1 "1" "P"%char H1), (T d2 "2" "P"%char H2). reflexivity.
Qed.

(** C9: when the report shows that [GetProfiles] succeeded with two
    profile entries whose tokens are ["P1"] and ["P2"] (the entries given
    as a list, or as the list under ["Profile"] of an object), the report
    holds [stream_uris] with exactly the two keys ["P1"] and ["P2"], in
    this order.  Each value is the outcome of its own [GetStreamUri] turn:
    the normalized answer, or the failure record of what raised; the
    second turn starts where the first one left the device, whatever the
    first outcome was. *)
Theorem two_profiles_two_stream_uris (cam : ONVIFCamera W raw) (w w' : W)
    (report : Summary) (media_entry : dict) (r : pyval) (d1 d2 : dict) :
  main (inr cam) w = (inr (Finished report), w') ->
  dict_get (services report) (VStr "media") = Some (VDict media_entry) ->
  dict_get media_entry (VStr "GetProfiles") = Some (VDict (success r)) ->
  r = VList [VDict d1; VDict d2] \/
  (exists d, r = VDict d /\
             dict_get d (VStr "Profile") = Some (VList [VDict d1; VDict d2])) ->
  dict_get d1 (VStr "token") = Some (VStr "P1") ->
  dict_get d2 (VStr "token") = Some (VStr "P2") ->
  exists media v1 v2 w1 w2,
    create_media_service cam = inr media /\
    stream_uris report = Some [(VStr "P1", v1); (VStr "P2", v2)] /\
    stream_outcome media (VStr "P1") w1 v1 w2 /\
    stream_outcome media (VStr "P2") w2 v2 w'.
Proof.
  intros Hm G1 G2 Hr H1 H2.
  destruct (main_stages cam w)
    as (gsv & wa & s2 & c2 & wb & s3 & w3 & _ & Ec & Hn & _ & _ & Es & V & _ & E).
  rewrite E in Hm. injection Hm as <- <-.
  destruct (device_summary_pass_keeps s3) as (Ks & _ & Ku).
  rewrite Ks, V in G1.
  destruct (catalog_profiles cam _ s2 _ c2 wa wb media_entry (success r)
              Hn eq_refl Ec G1 G2) as (media & M & P).
  rewrite (two_profile_tokens r d1 d2 Hr H1 H2) in P.
  unfold Info.stream_pass in Es. rewrite P, M in Es.
  unfold try_except in Es.
  change (truthy (VList [VStr "P1"; VStr "P2"])) with true in Es.
  cbv iota in Es.
  destruct (stream_turn media "P1" [] [VStr "P2"] wb) as (v1 & w1 & O1 & T1).
  destruct (stream_turn media "P2" (dict_set [] (VStr "P1") v1) [] w1)
    as (v2 & w2 & O2 & T2).
  rewrite (bind_inr (lift W (inr media)) _ wb wb media eq_refl) in Es.
  rewrite (bind_inr _ _ wb w2 _ (eq_trans T1 T2)) in Es.
  unfold ret in Es. injection Es as <- <-.
  exists media, v1, v2, wb, w1. split; [exact M|].
  split; [rewrite Ku; reflexivity|]. split; [exact O1 | exact O2].
Qed.

End Walk.

(** C6 (as the spec has it) fails: for a proxy whose attribute lookup
    raises, the record has no traceback, and its ["error"] is the fixed
    text with the method name, not the message of the exception, which is
    under ["exc"]. *)
Lemma lookup_failure_lacks_traceback :
  let r := Info.safe_call Samples.World pyval Samples.plain Samples.plain
             Samples.plain_str Samples.no_operations "GetNodes" [] [] in
  let e := mk_exn "AttributeError" "no operation GetNodes" "" in
  r = (inr (lookup_failure "GetNodes" e), []) /\
  dict_get (lookup_failure "GetNodes" e) (VStr "traceback") = None /\
  dict_get (lookup_failure "GetNodes" e) (VStr "error")
    = Some (VStr (msg_method_not_found "GetNodes")) /\
  dict_get (lookup_failure "GetNodes" e) (VStr "exc")
    = Some (VStr "no operation GetNodes").
Proof.
  vm_compute. repeat split; reflexivity.
Qed.

(** C7 (as the spec has it) fails: on a camera without PTZ the report has
    no outcome for the configured pairs [(ptz, GetServiceCapabilities)]
    and [(ptz, GetNodes)]; the [ptz] entry is the session failure. *)
Lemma ptz_calls_not_reported :
  let r := Samples.sample_main Samples.camera_without_ptz in
  let report := Samples.report_of r in
  fst r = inr (Finished report) /\
  existsb (fun entry => String.eqb (fst entry) "ptz"
                        && existsb (fun call => String.eqb (fst call) "GetNodes")
                                   (snd entry))
          SERVICE_METHODS = true /\
  dict_get (services report) (VStr "ptz")
    = Some (VDict (session_failure "ptz" Samples.no_ptz)) /\
  Samples.get2 (services report) "ptz" "GetServiceCapabilities" = None /\
  Samples.get2 (services report) "ptz" "GetNodes" = None.
Proof.
  vm_compute. repeat split; reflexivity.
Qed.

(** C8 (as the spec has it) fails: the entry of the failed category has no
    stage tag, and [errors] holds no entry for it. *)
Lemma session_failure_has_no_stage :
  let report := Samples.report_of
                  (Samples.sample_main Samples.camera_without_ptz) in
  service_creators Samples.camera_without_ptz "ptz"
    = Some (inl Samples.no_ptz) /\
  Samples.get2 (services report) "ptz" "stage" = None /\
  Samples.get2 (services report) "ptz" "error"
    = Some (VStr (msg_create_failed "ptz" Samples.no_ptz)) /\
  errors report = [].
Proof.
  vm_compute. repeat split; reflexivity.
Qed.

Lemma session_failure_contained_witness :
  In ("ptz", [("GetServiceCapabilities", []); ("GetNodes", [])])
     SERVICE_METHODS /\
  service_creators Samples.camera_without_ptz "ptz"
    = Some (inl Samples.no_ptz) /\
  exists report w',
    Samples.sample_main Samples.camera_without_ptz
      = (inr (Finished report), w') /\
    dict_get (services report) (VStr "ptz")
      = Some (VDict (session_failure "ptz" Samples.no_ptz)).
Proof.
  assert (In ("ptz", [("GetServiceCapabilities", []:dict); ("GetNodes", [])])
             SERVICE_METHODS) as I
      by (right; right; right; left; reflexivity).
  split; [exact I|]. split; [reflexivity|].
  destruct (session_failure_contained Samples.World pyval Samples.plain
              Samples.plain Samples.plain_str Samples.camera_without_ptz []
              "ptz" _ Samples.no_ptz I eq_refl)
    as (report & w' & E & G & _).
  exists report, w'. split; [exact E | exact G].
Defined.

Lemma two_profiles_two_stream_uris_witness :
  let r := Samples.sample_main Samples.camera_without_ptz in
  Samples.get2 (services (Samples.report_of r)) "media" "GetProfiles"
    = Some (VDict (success Samples.two_profiles)) /\
  exists media v1 v2 w1 w2,
    create_media_service Samples.camera_without_ptz = inr media /\
    stream_uris (Samples.report_of r)
      = Some [(VStr "P1", v1); (VStr "P2", v2)] /\
    Info.stream_outcome Samples.World pyval Samples.plain Samples.plain
      Samples.plain_str media (VStr "P1") w1 v1 w2 /\
    Info.stream_outcome Samples.World pyval Samples.plain Samples.plain
      Samples.plain_str media (VStr "P2") w2 v2 (snd r).
Proof.
  split; [vm_compute; reflexivity|].
  apply (two_profiles_two_stream_uris Samples.World pyval Samples.plain
           Samples.plain Samples.plain_str Samples.camera_without_ptz []
           (snd (Samples.sample_main Samples.camera_without_ptz))
           (Samples.report_of (Samples.sample_main Samples.camera_without_ptz))
           (Samples.entry_of
              (services (Samples.report_of
                           (Samples.sample_main Samples.camera_without_ptz)))
              "media")
           Samples.two_profiles Samples.profile_P1 Samples.profile_P2).
  - vm_compute. reflexivity.
  - vm_compute. reflexivity.
  - vm_compute. reflexivity.
  - left. reflexivity.
  - reflexivity.
  - reflexivity.
Defined.

(** C2 at an input where the code falls short: [GetProfiles] succeeded and
    its stored result holds the video-source tokens ["VS1"] and ["VS2"]
    on the path Profile, VideoSourceConfiguration, SourceToken, the
    imaging session exists, and still the report has the note for
    [GetImagingSettings] and the operation was never invoked.  The branch
    looks the result up under the key ["media_GetProfiles"] of the
    services, a key that the report never has; the result is under
    ["media"], and only once the media loop has ended. *)
Theorem imaging_settings_never_derived :
  let r := Samples.sample_main Samples.camera_without_ptz in
  let report := Samples.report_of r in
  fst r = inr (Finished report) /\
  Samples.get2 (services report) "media" "GetProfiles"
    = Some (VDict (success Samples.two_profiles)) /\
  scan_profiles_data Samples.two_profiles [] = [VStr "VS1"; VStr "VS2"] /\
  Samples.get2 (services report) "imaging" "GetImagingSettings"
    = Some (VDict prerequisite_missing) /\
  existsb (String.eqb "imaging.GetImagingSettings") (snd r) = false /\
  existsb (String.eqb "imaging.GetServiceCapabilities") (snd r) = true /\
  dict_get (services report) (VStr "media_GetProfiles") = None.
Proof.
  vm_compute. repeat split; reflexivity.
Qed.

Lemma imaging_settings_always_noted_witness :
  exists report w' entry,
    Samples.sample_main Samples.camera_without_ptz
      = (inr (Finished report), w') /\
    dict_get (services report) (VStr "imaging") = Some (VDict entry) /\
    dict_get entry (VStr "GetImagingSettings")
      = Some (VDict prerequisite_missing).
Proof.
  exact (imaging_settings_always_noted Samples.World pyval Samples.plain
           Samples.plain Samples.plain_str Samples.camera_without_ptz
           (Samples.canned "imaging" (fun _ => inr (VDict []))) [] eq_refl).
Defined.

End WalkFacts.

(* ================================================================== *)
(** * onvif_discover.py: more on the parser and the scan *)
(* ================================================================== *)

Module ScanFacts.
Import Py Discover StringFacts ScopeFieldFacts ParserFacts.

(** ** Trimming *)

Lemma lstrip_head (s : string) :
  lstrip s = "" \/
  exists c r, lstrip s = String c r /\ is_py_space c = false.
Proof.
  induction s as [|c s IH]; simpl; [now left|].
  destruct (is_py_space c) eqn:E; [exact IH|].
  right. now exists c, s.
Qed.

Lemma lstrip_fixed (c : ascii) (r : string) :
  is_py_space c = false -> lstrip (String c r) = String c r.
Proof. simpl. now intros ->. Qed.

Lemma rstrip_head (c : ascii) (r : string) :
  is_py_space c = false -> exists r', rstrip (String c r) = String c r'.
Proof.
  intros E. simpl. destruct (rstrip r) as [|x y].
  - rewrite E. now exists "".
  - now exists (String x y).
Qed.

Lemma rstrip_idempotent (s : string) : rstrip (rstrip s) = rstrip s.
Proof.
  induction s as [|c s IH]; simpl; [reflexivity|].
  destruct (rstrip s) as [|x y] eqn:R.
  - destruct (is_py_space c) eqn:E; simpl; [reflexivity | now rewrite E].
  - change (rstrip (String c (String x y))) with
      (match rstrip (String x y) with
       | "" => if is_py_space c then "" else String c ""
       | r => String c r
       end).
    now rewrite IH.
Qed.

(** What [strip] returns has no white space at either end: stripping it
    again, on the left or on the right, changes nothing. *)
Lemma strip_trimmed (s : string) :
  lstrip (strip s) = strip s /\ rstrip (strip s) = strip s.
Proof.
  unfold strip. split; [|apply rstrip_idempotent].
  destruct (lstrip_head s) as [->|(c & r & -> & E)]; [reflexivity|].
  destruct (rstrip_head c r E) as (r' & ->). now apply lstrip_fixed.
Qed.

(** ** The record for every input *)

(** What [try_block] leaves in the two lists, whatever the outcome: the
    scopes of all [Scopes] elements, and the addresses of the [XAddrs]
    elements up to the first one without text. *)
Lemma xaddrs_loop_prefix (xaddrs : list element) (info : device_info) :
  exists k,
    k <= List.length xaddrs /\
    Scopes (fst (xaddrs_loop xaddrs info)) = Scopes info /\
    XAddrs (fst (xaddrs_loop xaddrs info))
      = (XAddrs info ++ map (fun x => strip (text_or_empty x)) (firstn k xaddrs))%list /\
    error (fst (xaddrs_loop xaddrs info)) = error info /\
    Manufacturer (fst (xaddrs_loop xaddrs info)) = Manufacturer info /\
    Model (fst (xaddrs_loop xaddrs info)) = Model info /\
    Hardware (fst (xaddrs_loop xaddrs info)) = Hardware info /\
    Location (fst (xaddrs_loop xaddrs info)) = Location info /\
    from (fst (xaddrs_loop xaddrs info)) = from info /\
    Forall (fun x => text_of x <> None) (firstn k xaddrs) /\
    match snd (xaddrs_loop xaddrs info) with
    | None => k = List.length xaddrs
    | Some e => e = AttributeError VNone "strip" /\
                exists x, nth_error xaddrs k = Some x /\ text_of x = None
    end.
Proof.
  revert info. induction xaddrs as [|x xaddrs IH]; intros info; simpl.
  - exists 0. simpl. rewrite app_nil_r.
    split; [lia|]. do 8 (split; [auto|]). split; [constructor | reflexivity].
  - destruct (text_of x) as [t|] eqn:T.
    + destruct (IH (add_xaddr info (strip t)))
        as (k & L & A1 & A2 & A3 & A4 & A5 & A6 & A7 & A8 & F & A9).
      exists (S k). simpl in *. unfold text_or_empty at 1. rewrite T.
      rewrite A2, <- app_assoc. simpl.
      split; [lia|]. do 8 (split; [auto|]).
      split; [constructor; [congruence | exact F]|].
      destruct (snd (xaddrs_loop xaddrs (add_xaddr info (strip t))));
        [exact A9 | now f_equal].
    + exists 0. simpl. rewrite app_nil_r.
      split; [lia|]. do 8 (split; [auto|]). split; [constructor|].
      split; [reflexivity|]. exists x. auto.
Qed.


(** For every text, what [parse_probe_response] returns.  Text that the
    XML parser rejects gives the empty record with the parser's message.
    For a document, [Scopes] holds the trimmed text of every [Scopes]
    element (the empty string for one without text), in document order,
    and [XAddrs] the trimmed text of the [XAddrs] elements before the first
    one without text.  When every [XAddrs] element has text there is no
    error and the four fields are what [extract_scope_field] finds in the
    scopes joined by one space; otherwise the error is the message of the
    [AttributeError] and no field is set. *)
Theorem parse_probe_response_record
    (fromstring : string -> expat_error + element) (xml_data : string) :
  let info := parse_probe_response fromstring xml_data in
  from info = None /\
  match fromstring xml_data with
  | inl x =>
      info = mk_info [] [] None None None None
                     (Some (exn_str (ParseError x))) None
  | inr root =>
      let scopes := findall_descendants root ns_d "Scopes" in
      let xaddrs := findall_descendants root ns_d "XAddrs" in
      let field := extract_scope_field (join " " (Scopes info)) in
      Scopes info = map (fun s => strip (text_or_empty s)) scopes /\
      exists k,
        k <= List.length xaddrs /\
        XAddrs info = map (fun x => strip (text_or_empty x)) (firstn k xaddrs) /\
        Forall (fun x => text_of x <> None) (firstn k xaddrs) /\
        ((k = List.length xaddrs /\ error info = None /\
          Manufacturer info = Some (field "onvif://www.onvif.org/name") /\
          Model info = Some (field "onvif://www.onvif.org/model") /\
          Hardware info = Some (field "onvif://www.onvif.org/hardware") /\
          Location info = Some (field "onvif://www.onvif.org/location")) \/
         ((exists x, nth_error xaddrs k = Some x /\ text_of x = None) /\
          error info = Some "'NoneType' object has no attribute 'strip'" /\
          Manufacturer info = None /\ Model info = None /\
          Hardware info = None /\ Location info = None))
  end.
Proof.
  unfold parse_probe_response, try_block.
  destruct (fromstring xml_data) as [x|root]; [simpl; auto|].
  rewrite scopes_loop_spec. simpl.
  set (info0 := mk_info _ _ _ _ _ _ _ _).
  destruct (xaddrs_loop_prefix (findall_descendants root ns_d "XAddrs") info0)
    as (k & L & A1 & A2 & A3 & A4 & A5 & A6 & A7 & A8 & F & A9).
  destruct (xaddrs_loop (findall_descendants root ns_d "XAddrs") info0)
    as [info1 [e|]]; simpl in *.
  - destruct A9 as (-> & X). split; [exact A8|]. split; [exact A1|].
    exists k. repeat split; auto. right. repeat split; auto.
  - split; [exact A8|]. split; [exact A1|].
    exists k. repeat split; auto. left. rewrite A1. repeat split; auto.
Qed.

(** The four scope fields are set exactly when no error is recorded, for
    every input. *)
Theorem fields_iff_no_error
    (fromstring : string -> expat_error + element) (xml_data : string) :
  let info := parse_probe_response fromstring xml_data in
  (error info = None /\
   exists ma mo ha lo,
     Manufacturer info = Some ma /\ Model info = Some mo /\
     Hardware info = Some ha /\ Location info = Some lo) \/
  ((exists msg, error info = Some msg) /\
   Manufacturer info = None /\ Model info = None /\
   Hardware info = None /\ Location info = None).
Proof.
  unfold parse_probe_response, try_block.
  destruct (fromstring xml_data) as [x|root].
  - right. simpl. split; [eauto | auto].
  - rewrite scopes_loop_spec.
    set (info0 := mk_info _ _ _ _ _ _ _ _).
    destruct (xaddrs_loop_prefix (findall_descendants root ns_d "XAddrs") info0)
      as (k & L & A1 & A2 & A3 & A4 & A5 & A6 & A7 & A8 & F & A9).
    destruct (xaddrs_loop (findall_descendants root ns_d "XAddrs") info0)
      as [info1 [e|]]; simpl in *.
    + right. split; [eauto | auto].
    + left. split; [exact A3 | eauto 8].
Qed.

(** Every string in [Scopes] and in [XAddrs] is trimmed, for every
    input. *)
Theorem lists_are_trimmed
    (fromstring : string -> expat_error + element) (xml_data : string) :
  let info := parse_probe_response fromstring xml_data in
  Forall (fun s => lstrip s = s /\ rstrip s = s) (Scopes info) /\
  Forall (fun s => lstrip s = s /\ rstrip s = s) (XAddrs info).
Proof.
  unfold parse_probe_response, try_block.
  destruct (fromstring xml_data) as [x|root]; [simpl; split; constructor|].
  rewrite scopes_loop_spec.
  set (info0 := mk_info _ _ _ _ _ _ _ _).
  destruct (xaddrs_loop_prefix (findall_descendants root ns_d "XAddrs") info0)
    as (k & L & A1 & A2 & _).
  assert (Forall (fun s => lstrip s = s /\ rstrip s = s)
                 (Scopes (fst (xaddrs_loop
                                 (findall_descendants root ns_d "XAddrs") info0)))
          /\ Forall (fun s => lstrip s = s /\ rstrip s = s)
                    (XAddrs (fst (xaddrs_loop
                                    (findall_descendants root ns_d "XAddrs") info0))))
    as R.
  { rewrite A1, A2. simpl.
    split; apply Forall_map, Forall_forall; intros; apply strip_trimmed. }
  destruct (xaddrs_loop (findall_descendants root ns_d "XAddrs") info0)
    as [info1 [e|]]; exact R.
Qed.


(** ** Scope fields *)

Lemma extract_some (scope_str key v : string) :
  extract_scope_field scope_str key = Some v ->
  v <> "" /\ ~ In " "%char (list_ascii_of_string v).
Proof.
  unfold extract_scope_field. intros R.
  destruct (re_search_some _ _ _ R) as (pre & rest & _ & Hm & _).
  destruct (match_here_some _ _ _ Hm) as (Hv & Hn & _).
  now split.
Qed.

(** A scope field of a record is never the empty string and never holds a
    space, for every input: it is absent, [None], or a proper value. *)
Theorem field_values_are_proper
    (fromstring : string -> expat_error + element) (xml_data : string) :
  let info := parse_probe_response fromstring xml_data in
  Forall (fun f => forall v, f = Some (Some v) ->
                             v <> "" /\ ~ In " "%char (list_ascii_of_string v))
         [Manufacturer info; Model info; Hardware info; Location info].
Proof.
  unfold parse_probe_response, try_block.
  destruct (fromstring xml_data) as [x|root].
  - simpl. repeat (apply Forall_cons; [discriminate|]). apply Forall_nil.
  - rewrite scopes_loop_spec.
    set (info0 := mk_info _ _ _ _ _ _ _ _).
    destruct (xaddrs_loop_prefix (findall_descendants root ns_d "XAddrs") info0)
      as (k & _ & _ & _ & _ & A4 & A5 & A6 & A7 & _).
    destruct (xaddrs_loop (findall_descendants root ns_d "XAddrs") info0)
      as [info1 [e|]]; simpl in *.
    + rewrite A4, A5, A6, A7.
      repeat (apply Forall_cons; [discriminate|]). apply Forall_nil.
    + repeat (apply Forall_cons;
              [intros v [= E]; now apply extract_some in E|]).
      apply Forall_nil.
Qed.

Lemma join_In (sep x : string) (parts : list string) :
  In x parts -> exists pre post, join sep parts = pre ++ x ++ post.
Proof.
  unfold join. induction parts as [|p parts IH]; intros I; [elim I|].
  destruct I as [->|I].
  - exists "". destruct parts as [|q parts]; simpl.
    + exists "". now rewrite append_nil_r.
    + now exists (sep ++ String.concat sep (q :: parts)).
  - destruct (IH I) as (pre & post & E).
    destruct parts as [|q parts]; [elim I|].
    exists (p ++ sep ++ pre), post.
    change (String.concat sep (p :: q :: parts))
      with (p ++ sep ++ String.concat sep (q :: parts)).
    rewrite E. now rewrite !append_assoc.
Qed.

(** A field that some scope of the list advertises is found: when one of
    the joined scopes is the key, a slash and a value that does not begin
    with a space, the extraction from the joined text does not return
    [None]. *)
Theorem advertised_field_is_found (scopes : list string)
    (key value : string) (c : ascii) :
  In (key ++ "/" ++ String c value) scopes ->
  c <> " "%char ->
  exists v, extract_scope_field (join " " scopes) key = Some v.
Proof.
  intros I Hc. destruct (join_In " " _ _ I) as (pre & post & E).
  unfold extract_scope_field.
  destruct (re_search key (join " " scopes)) as [v|] eqn:R; [now exists v|].
  exfalso. apply Hc.
  apply (match_here_none key ((key ++ "/" ++ String c value) ++ post) c
                         (value ++ post)).
  - now apply (re_search_none _ _ R pre).
  - now rewrite !append_assoc.
Qed.

Lemma advertised_field_is_found_witness :
  In ("onvif://www.onvif.org/hardware" ++ "/" ++ String "H"%char "I3516")
     ["onvif://www.onvif.org/name/Cam";
      "onvif://www.onvif.org/hardware/HI3516"] /\
  exists v,
    extract_scope_field
      (join " " ["onvif://www.onvif.org/name/Cam";
                 "onvif://www.onvif.org/hardware/HI3516"])
      "onvif://www.onvif.org/hardware" = Some v.
Proof.
  assert (In ("onvif://www.onvif.org/hardware" ++ "/" ++ String "H"%char "I3516")
             ["onvif://www.onvif.org/name/Cam";
              "onvif://www.onvif.org/hardware/HI3516"]) as I
      by (right; left; reflexivity).
  split; [exact I|].
  apply (advertised_field_is_found _ _ _ _ I). discriminate.
Defined.

(** ** The scan *)

Section Scan.

Variable fromstring : string -> expat_error + element.
Variable decode_ignore : list Byte.byte -> string.

(** The record that the loop appends for an event, if any. *)
Lemma recv_loop_results (timeout : Z) (schedule : list recv_event) (st : scan) :
  exists n,
    n <= List.length schedule /\
    Forall (fun ev => (wait_of ev < timeout)%Z) (firstn n schedule) /\
    (n = List.length schedule \/
     exists ev, nth_error schedule n = Some ev /\ (timeout <= wait_of ev)%Z) /\
    results (recv_loop fromstring decode_ignore timeout schedule st)
    = (results st ++
       flat_map (fun ev =>
                   match ev with
                   | Datagram _ data addr =>
                       [set_from (parse_probe_response fromstring
                                    (decode_ignore data)) (fst addr)]
                   | RecvError _ _ => []
                   end) (firstn n schedule))%list.
Proof.
  revert st. induction schedule as [|ev rest IH]; intros st; simpl.
  - exists 0. simpl. rewrite app_nil_r. repeat split; auto.
  - destruct (Z.leb_spec timeout (wait_of ev)) as [L|L].
    + exists 0. simpl. rewrite app_nil_r. repeat split; auto with arith.
      right. exists ev. auto.
    + destruct ev as [w data addr|w e]; simpl in *.
      * destruct (IH (mk_scan
                        (results st ++
                         [set_from (parse_probe_response fromstring
                                      (decode_ignore data)) (fst addr)])
                        (blocked st ++ [w])))
          as (n & Hn & Hf & Hl & Hr).
        exists (S n). simpl in *. rewrite Hr, <- app_assoc.
        split; [lia|]. split; [constructor; [exact L | exact Hf]|].
        split; [|reflexivity].
        destruct Hl as [->|Hl]; auto.
      * destruct (IH (mk_scan (results st) (blocked st ++ [w])))
          as (n & Hn & Hf & Hl & Hr).
        exists (S n). simpl in *. rewrite Hr.
        split; [lia|]. split; [constructor; [exact L | exact Hf]|].
        split; [|reflexivity].
        destruct Hl as [->|Hl]; auto.
Qed.

(** What a scan with a positive timeout returns: the events are taken in
    order up to the first one that does not come before the timeout has
    run out; each datagram
    among them gives one record, in arrival order, made by the parser
    from the decoded payload and stamped with the sender's address; a
    receive error gives no record and does not end the scan; nothing
    after the cut is looked at. *)
Theorem scan_records (g : module_globals) (timeout : Z)
    (schedule : list recv_event) (p : process) :
  (0 < timeout)%Z ->
  let d := fst (discover_onvif_devices fromstring decode_ignore g timeout
                  schedule p) in
  exists n,
    n <= List.length schedule /\
    Forall (fun ev => (wait_of ev < timeout)%Z) (firstn n schedule) /\
    (n = List.length schedule \/
     exists ev, nth_error schedule n = Some ev /\ (timeout <= wait_of ev)%Z) /\
    results (the_scan d)
    = flat_map (fun ev =>
                  match ev with
                  | Datagram _ data addr =>
                      [set_from (parse_probe_response fromstring
                                   (decode_ignore data)) (fst addr)]
                  | RecvError _ _ => []
                  end) (firstn n schedule) /\
    List.length (results (the_scan d)) <= n /\
    Forall (fun info => exists ip, from info = Some ip) (results (the_scan d)).
Proof.
  intros _. simpl.
  destruct (recv_loop_results timeout schedule (mk_scan [] []))
    as (n & Hn & Hf & Hl & Hr).
  exists n. simpl in Hr. rewrite Hr.
  split; [exact Hn|]. split; [exact Hf|]. split; [exact Hl|].
  split; [reflexivity|]. clear. split.
  - apply Nat.le_trans with (List.length (firstn n schedule));
      [|apply firstn_le_length].
    induction (firstn n schedule) as [|ev l IH]; simpl; [lia|].
    rewrite length_app. destruct ev; simpl; lia.
  - induction (firstn n schedule) as [|ev l IH]; simpl; [constructor|].
    apply Forall_app. split; [|exact IH].
    destruct ev as [w data addr|w e]; simpl; [|constructor].
    apply Forall_cons; [|apply Forall_nil]. now exists (fst addr).
Qed.

End Scan.

Lemma scan_records_witness :
  (0 < 5)%Z /\
  let d := fst (discover_onvif_devices Samples.sample_fromstring
                  Samples.sample_decode (mk_globals (probe_text "u")) 5
                  MoreSamples.mixed_answers Samples.fresh_process) in
  exists n,
    n <= List.length MoreSamples.mixed_answers /\
    Forall (fun ev => (wait_of ev < 5)%Z) (firstn n MoreSamples.mixed_answers) /\
    (n = List.length MoreSamples.mixed_answers \/
     exists ev, nth_error MoreSamples.mixed_answers n = Some ev /\
                (5 <= wait_of ev)%Z) /\
    results (the_scan d)
    = flat_map (fun ev =>
                  match ev with
                  | Datagram _ data addr =>
                      [set_from (parse_probe_response Samples.sample_fromstring
                                   (Samples.sample_decode data)) (fst addr)]
                  | RecvError _ _ => []
                  end) (firstn n MoreSamples.mixed_answers) /\
    List.length (results (the_scan d)) <= n /\
    Forall (fun info => exists ip, from info = Some ip) (results (the_scan d)).
Proof.
  split; [reflexivity|].
  apply (scan_records Samples.sample_fromstring Samples.sample_decode
           (mk_globals (probe_text "u")) 5 MoreSamples.mixed_answers
           Samples.fresh_process).
  reflexivity.
Defined.

End ScanFacts.

(* ================================================================== *)
(** * onvif_discover.py: the listing *)
(* ================================================================== *)

Module ConsoleFacts.
Import Py Discover Console.

Section Listing.

Variable repr_list : list string -> string.

Lemma filter_keep {A : Type} (P : A -> bool) (x : A) (l : list A) :
  P x = true -> filter P (x :: l) = x :: filter P l.
Proof. simpl. now intros ->. Qed.

Lemma filter_drop {A : Type} (P : A -> bool) (x : A) (l : list A) :
  P x = false -> filter P (x :: l) = filter P l.
Proof. simpl. now intros ->. Qed.

Lemma device_lines_opening (idx : nat) (dev : device_info) :
  filter opens_block (device_lines repr_list idx dev)
  = [header idx; "IP origem       : " ++ str_from (from dev)].
Proof.
  unfold device_lines. cbv zeta.
  rewrite filter_keep by reflexivity.
  rewrite filter_keep by reflexivity.
  do 2 f_equal. rewrite !filter_app. unfold field_line.
  destruct (XAddrs dev), (Scopes dev), (shown (Manufacturer dev)),
    (shown (Model dev)), (shown (Hardware dev)), (shown (Location dev));
    reflexivity.
Qed.

Lemma devices_lines_opening (idx : nat) (devices : list device_info) :
  filter opens_block (devices_lines repr_list idx devices)
  = flat_map (fun numbered =>
                [header (fst numbered);
                 "IP origem       : " ++ str_from (from (snd numbered))])
             (combine (seq idx (List.length devices)) devices).
Proof.
  revert idx. induction devices as [|dev devices IH]; intros idx.
  - reflexivity.
  - cbn [devices_lines List.length seq combine flat_map fst snd].
    rewrite filter_app, device_lines_opening, IH. reflexivity.
Qed.

(** The [print] calls of the listing show every device once, in the order
    given and numbered from 1: the calls whose argument begins as a header
    or as a source address does are, device by device, the header call
    with the number and the source address call; the argument of no other
    call begins that way, whatever the addresses, the scopes and the field
    values are.  This is about the calls and how their arguments begin:
    an argument that holds a line feed is shown on several lines. *)
Theorem listing_numbers_devices (devices : list device_info) :
  filter opens_block (print_results repr_list devices)
  = flat_map (fun numbered =>
                [header (fst numbered);
                 "IP origem       : " ++ str_from (from (snd numbered))])
             (combine (seq 1 (List.length devices)) devices).
Proof.
  destruct devices as [|dev devices]; [reflexivity|].
  unfold print_results.
  rewrite filter_drop by reflexivity.
  apply devices_lines_opening.
Qed.

End Listing.

End ConsoleFacts.

(* ================================================================== *)
(** * onvif_info.py: more on the run *)
(* ================================================================== *)

Module RunFacts.
Import Py Info Report DictFacts.

Lemma dict_keys_set (d : dict) (k v : pyval) :
  dict_keys (dict_set d k v) = add_key (dict_keys d) k.
Proof.
  unfold dict_keys. induction d as [|[k' v'] d IH]; simpl; [reflexivity|].
  destruct (key_eqb k' k); simpl; [reflexivity | now rewrite IH].
Qed.

Lemma add_key_again (keys : list pyval) (a : string) :
  add_key (add_key keys (VStr a)) (VStr a) = add_key keys (VStr a).
Proof.
  induction keys as [|k keys IH]; simpl.
  - now rewrite String.eqb_refl.
  - destruct (key_eqb k (VStr a)) eqn:E; simpl; rewrite E;
      [reflexivity | now rewrite IH].
Qed.

Lemma dict_set_twice (d : dict) (a : string) (v v' : pyval) :
  dict_set (dict_set d (VStr a) v) (VStr a) v' = dict_set d (VStr a) v'.
Proof.
  induction d as [|[k x] d IH]; simpl.
  - now rewrite String.eqb_refl.
  - destruct (key_eqb k (VStr a)) eqn:E; simpl; rewrite E;
      [reflexivity | now rewrite IH].
Qed.

Lemma set_service_twice (s : Summary) (name : string) (r r' : dict) :
  set_service (set_service s name r) name r' = set_service s name r'.
Proof.
  unfold set_service. simpl. now rewrite dict_set_twice.
Qed.

Lemma profile_tokens_failure (e : py_exn) :
  profile_tokens (failure e) = Some [].
Proof. reflexivity. Qed.

Lemma profile_tokens_lookup_failure (method_name : string) (e : py_exn) :
  profile_tokens (lookup_failure method_name e) = Some [].
Proof. reflexivity. Qed.

(** What [profile_tokens] keeps: every token kept is true
    as a condition, comes from the ["token"] or the ["@token"] entry of
    one of the profile entries, and there are at most as many tokens as
    entries. *)
Theorem profile_tokens_are_proper (out : dict) (tokens : list pyval) :
  profile_tokens out = Some tokens ->
  exists entries,
    (profiles_of out = VList entries \/
     exists d, profiles_of out = VDict d /\ entries = [VDict d]) /\
    List.length tokens <= List.length entries /\
    Forall (fun t =>
              truthy t = true /\
              exists d, In (VDict d) entries /\
                        (dict_get d (VStr "token") = Some t \/
                         dict_get d (VStr "@token") = Some t))
           tokens.
Proof.
  unfold profile_tokens.
  assert (forall entries,
             List.length (filter truthy (map profile_token entries))
             <= List.length entries /\
             Forall (fun t =>
                       truthy t = true /\
                       exists d, In (VDict d) entries /\
                                 (dict_get d (VStr "token") = Some t \/
                                  dict_get d (VStr "@token") = Some t))
                    (filter truthy (map profile_token entries))) as H.
  { intros entries. split.
    - rewrite <- (length_map profile_token entries). apply filter_length_le.
    - apply Forall_forall. intros t I. apply filter_In in I.
      destruct I as [I T]. split; [exact T|].
      apply in_map_iff in I. destruct I as (p & <- & I).
      destruct p as [| | | | |d]; try discriminate T.
      exists d. split; [exact I|].
      unfold profile_token, getattr_get, get_default, py_or in *.
      destruct (dict_get d (VStr "token")) as [a|];
        destruct (dict_get d (VStr "@token")) as [b|];
        try destruct (truthy a) eqn:Ta; try destruct (truthy b) eqn:Tb;
        simpl in *; rewrite ?Ta, ?Tb in *; simpl in *; rewrite ?Ta in *;
        auto; discriminate. }
  destruct (profiles_of out) as [| | | |entries|d] eqn:P; try discriminate.
  - intros [= <-]. exists entries. split; [now left | apply H].
  - intros [= <-]. exists [VDict d].
    split; [right; now exists d | apply (H [VDict d])].
Qed.

Lemma profile_tokens_are_proper_witness :
  profile_tokens (success Samples.two_profiles) = Some [VStr "P1"; VStr "P2"] /\
  exists entries,
    (profiles_of (success Samples.two_profiles) = VList entries \/
     exists d, profiles_of (success Samples.two_profiles) = VDict d /\
               entries = [VDict d]) /\
    2 <= List.length entries.
Proof.
  split; [reflexivity|].
  destruct (profile_tokens_are_proper (success Samples.two_profiles)
              [VStr "P1"; VStr "P2"] eq_refl) as (entries & P & L & _).
  exists entries. split; [exact P | exact L].
Defined.


Section Run.

Variables W raw : Type.
Variable serialize_object : raw -> py_exn + pyval.
Variable json_roundtrip : raw -> py_exn + pyval.
Variable py_str : raw -> py_exn + string.

Local Abbreviation serialize_obj :=
  (Info.serialize_obj raw serialize_object json_roundtrip py_str).
Local Abbreviation safe_call :=
  (Info.safe_call W raw serialize_object json_roundtrip py_str).
Local Abbreviation run_call :=
  (Info.run_call W raw serialize_object json_roundtrip py_str).
Local Abbreviation run_calls :=
  (Info.run_calls W raw serialize_object json_roundtrip py_str).
Local Abbreviation run_service :=
  (Info.run_service W raw serialize_object json_roundtrip py_str).
Local Abbreviation run_catalog :=
  (Info.run_catalog W raw serialize_object json_roundtrip py_str).
Local Abbreviation stream_loop :=
  (Info.stream_loop W raw serialize_object json_roundtrip py_str).
Local Abbreviation stream_pass :=
  (Info.stream_pass W raw serialize_object json_roundtrip py_str).
Local Abbreviation main :=
  (Info.main W raw serialize_object json_roundtrip py_str).
Local Abbreviation stream_outcome :=
  (Info.stream_outcome W raw serialize_object json_roundtrip py_str).
Local Abbreviation main_stages :=
  (WalkFacts.main_stages W raw serialize_object json_roundtrip py_str).
Local Abbreviation report_of_main :=
  (WalkFacts.report_of_main W raw serialize_object json_roundtrip py_str).
Local Abbreviation safe_call_cases :=
  (WalkFacts.safe_call_cases W raw serialize_object json_roundtrip py_str).
Local Abbreviation bind_inr := (WalkFacts.bind_inr W).
Local Abbreviation bind_inr_inv := (WalkFacts.bind_inr_inv W).

(** ** The call boundary *)

(** A call that returns is a success as soon as [str] of the answer does
    not raise: the value is that of zeep's serializer when it works, else
    that of the JSON round trip when it works, else the text of the
    answer.  A failing serializer alone never turns a call into a
    failure. *)
Theorem safe_call_falls_back (svc : service W raw) (method_name : string)
    (args : dict) (meth : method W raw) (res : raw) (text : string)
    (w w' : W) :
  getattr svc method_name = inr meth ->
  meth [] args w = (inr res, w') ->
  py_str res = inr text ->
  safe_call svc method_name args w
  = (inr (success
            match serialize_object res with
            | inr v => v
            | inl _ =>
                match json_roundtrip res with
                | inr v => v
                | inl _ => VStr text
                end
            end), w').
Proof.
  intros G C S.
  destruct (safe_call_cases svc method_name args w) as (out & w1 & E & H).
  rewrite G, C in H. destruct H as [-> H]. rewrite E. f_equal. f_equal.
  unfold Info.serialize_obj in H.
  destruct (serialize_object res); [|exact H].
  destruct (json_roundtrip res); [|exact H].
  now rewrite S in H.
Qed.

(** ** How a run ends *)

(** [main] never lets an exception out.  Without a camera object it makes
    no call, and ends through [save_and_exit] with status 1 and a report
    that has no service entry and one error, tagged ["connect"]; with a
    camera object it always reaches its end with a report. *)
Theorem main_always_ends (connect : py_exn + ONVIFCamera W raw) (w : W) :
  exists o w',
    main connect w = (inr o, w') /\
    match connect with
    | inl e =>
        w' = w /\
        o = Exited 1
              (mk_summary "192.168.1.68:8899" []
                 [VDict [ (VStr "stage", VStr "connect");
                          (VStr "error", VStr (exn_str e));
                          (VStr "traceback", VStr (format_exc e)) ]]
                 None None)
    | inr _ => exists report, o = Finished report
    end.
Proof.
  destruct connect as [e|cam].
  - eexists _, w. split; [reflexivity|]. now split.
  - destruct (report_of_main cam w) as (report & w' & E & _).
    exists (Finished report), w'. split; [exact E | now exists report].
Qed.

(** The device category cannot fail as a whole: its entry holds an
    outcome for each of its ten configured methods, and the report's
    [device_info_summary] is the outcome stored for
    [GetDeviceInformation]. *)
Theorem device_entry_complete (cam : ONVIFCamera W raw) (w : W) :
  exists report w' entry info,
    main (inr cam) w = (inr (Finished report), w') /\
    dict_get (services report) (VStr "device") = Some (VDict entry) /\
    (forall m,
        In m ["GetServices"; "GetDeviceInformation"; "GetSystemDateAndTime";
              "GetCapabilities"; "GetScopes"; "GetHostname";
              "GetNetworkInterfaces"; "GetNetworkProtocols"; "GetNTP";
              "GetUsers"] ->
        exists o, dict_get entry (VStr m) = Some o /\ call_outcome o) /\
    dict_get entry (VStr "GetDeviceInformation") = Some info /\
    call_outcome info /\
    device_info_summary report = Some info.
Proof.
  destruct (main_stages cam w)
    as (gsv & w1 & s2 & c2 & w2 & s3 & w3 & _ & _ & _ & _ & K & _ & V & _ & E).
  destruct (K "device" _ (or_introl eq_refl)) as (entry & G & T).
  unfold Info.service_entry in T.
  change (service_creators cam "device") with
    (Some (inr (devicemgmt cam) : py_exn + service W raw)) in T.
  destruct T as [T _].
  destruct (T "GetDeviceInformation") as (info & Gi & Oi);
    [simpl; tauto|].
  destruct (WalkFacts.device_summary_pass_keeps s3) as (Ks & _ & _).
  exists (device_summary_pass s3), w3, entry, info.
  split; [exact E|]. rewrite Ks, V. split; [exact G|].
  split; [exact T|]. split; [exact Gi|]. split; [exact Oi|].
  unfold device_summary_pass, get_default. rewrite V, G. simpl.
  now rewrite Gi.
Qed.

(** The entry ["device_GetServices"] of the report is the outcome of the
    very first call of the run, [GetServices] with [IncludeCapability]
    set, made on the device as the run found it; the catalog pass does
    not touch it. *)
Theorem first_call_is_kept (cam : ONVIFCamera W raw) (w : W) :
  exists gsv w1 report w',
    safe_call (devicemgmt cam) "GetServices"
      [(VStr "IncludeCapability", VBool true)] w = (inr gsv, w1) /\
    main (inr cam) w = (inr (Finished report), w') /\
    dict_get (services report) (VStr "device_GetServices")
      = Some (VDict gsv).
Proof.
  destruct (main_stages cam w)
    as (gsv & w1 & s2 & c2 & w2 & s3 & w3 & E0 & _ & _ & S & _ & _ & V & _ & E).
  destruct (WalkFacts.device_summary_pass_keeps s3) as (Ks & _ & _).
  exists gsv, w1, (device_summary_pass s3), w3.
  split; [exact E0|]. split; [exact E|].
  rewrite Ks, V. destruct S as (_ & _ & _ & _ & S).
  rewrite S by (simpl; intuition discriminate). reflexivity.
Qed.


(** ** The keys of the report *)

Lemma run_call_summary (svc_name : string) (svc : service W raw)
    (call : string * dict) (st st' : loop_state) (w w' : W) :
  run_call svc_name svc call st w = (inr st', w') ->
  summary st' = summary st \/
  exists r, summary st' = set_service (summary st) svc_name r.
Proof.
  unfold Info.run_call. destruct call as [m args].
  destruct (String.eqb svc_name "media" && String.eqb m "GetProfiles").
  - intros R. apply bind_inr_inv in R. destruct R as (out & w1 & _ & R).
    unfold ret in R. injection R as <- _. now left.
  - destruct (String.eqb svc_name "imaging" && String.eqb m "GetImagingSettings").
    + intros R. apply bind_inr_inv in R. destruct R as (tokens & w1 & _ & R).
      destruct (truthy (VList tokens)).
      * apply bind_inr_inv in R. destruct R as (entries & w2 & _ & R).
        unfold ret in R. injection R as <- _. right. eexists. reflexivity.
      * unfold ret in R. injection R as <- _. right. eexists. reflexivity.
    + intros R. apply bind_inr_inv in R. destruct R as (out & w1 & _ & R).
      unfold ret in R. injection R as <- _. now left.
Qed.

Lemma run_calls_keys (svc_name : string) (svc : service W raw)
    (calls : list (string * dict)) :
  forall (st st' : loop_state) (w w' : W),
    run_calls svc_name svc calls st w = (inr st', w') ->
    dict_keys (services (summary st')) = dict_keys (services (summary st)) \/
    dict_keys (services (summary st'))
    = add_key (dict_keys (services (summary st))) (VStr svc_name).
Proof.
  induction calls as [|call calls IH]; intros st st' w w' R; simpl in R.
  - unfold ret in R. injection R as <- _. now left.
  - apply bind_inr_inv in R. destruct R as (st1 & w1 & R1 & R).
    apply run_call_summary in R1. destruct (IH _ _ _ _ R) as [K|K].
    + destruct R1 as [R1|(r & R1)]; rewrite R1 in K; [now left|].
      right. rewrite K. unfold set_service. simpl. apply dict_keys_set.
    + right. rewrite K. destruct R1 as [R1|(r & R1)]; rewrite R1;
        [reflexivity|].
      unfold set_service. simpl. rewrite dict_keys_set. apply add_key_again.
Qed.

Lemma run_service_keys (cam : ONVIFCamera W raw) (svc_name : string)
    (calls : list (string * dict)) (s s' : Summary) (c c' : Context)
    (w w' : W) :
  run_service cam (svc_name, calls) (s, c) w = (inr (s', c'), w') ->
  dict_keys (services s') = add_key (dict_keys (services s)) (VStr svc_name).
Proof.
  unfold Info.run_service.
  destruct (service_creators cam svc_name) as [[e|svc]|].
  - unfold ret. intros R. injection R as <- _ _.
    unfold set_service. simpl. apply dict_keys_set.
  - intros R. apply bind_inr_inv in R. destruct R as (st & w1 & R1 & R).
    unfold ret in R. injection R as <- _ _.
    unfold set_service. simpl. rewrite dict_keys_set.
    destruct (run_calls_keys _ _ _ _ _ _ _ R1) as [K|K]; rewrite K; simpl;
      [reflexivity | apply add_key_again].
  - unfold ret. intros R. injection R as <- _ _.
    unfold set_service. simpl. apply dict_keys_set.
Qed.

Lemma run_catalog_keys (cam : ONVIFCamera W raw)
    (catalog : list (string * list (string * dict))) :
  forall (s s' : Summary) (c c' : Context) (w w' : W),
    run_catalog cam catalog (s, c) w = (inr (s', c'), w') ->
    dict_keys (services s')
    = fold_left add_key (map (fun entry => VStr (fst entry)) catalog)
                (dict_keys (services s)).
Proof.
  induction catalog as [|[svc_name calls] catalog IH];
    intros s s' c c' w w' R; simpl in R.
  - unfold ret in R. now injection R as <- _ _.
  - apply bind_inr_inv in R. destruct R as ([s1 c1] & w1 & R1 & R).
    apply run_service_keys in R1. rewrite (IH _ _ _ _ _ _ R). simpl.
    now rewrite R1.
Qed.

(** What [main] prints at its end is the same for every device, up to
    the number of errors: the target, the six service keys
    [device_GetServices], [device], [media], [imaging], [ptz], [events] in
    this order, whether the categories exist on the device or not, and an
    error count of 0 or 1. *)
Theorem printed_summary_shape (cam : ONVIFCamera W raw) (w : W) :
  exists report w' n,
    main (inr cam) w = (inr (Finished report), w') /\
    (n = 0%Z \/ n = 1%Z) /\
    printed_summary report
    = [ (VStr "target", VStr "192.168.1.68:8899");
        (VStr "services_found",
         VList [VStr "device_GetServices"; VStr "device"; VStr "media";
                VStr "imaging"; VStr "ptz"; VStr "events"]);
        (VStr "errors", VInt n) ].
Proof.
  destruct (main_stages cam w)
    as (gsv & w1 & s2 & c2 & w2 & s3 & w3 & _ & E1 & _ & S & _ & E2 & V & R & E).
  destruct (WalkFacts.device_summary_pass_keeps s3) as (Ks & Ke & _).
  exists (device_summary_pass s3), w3,
         (Z.of_nat (List.length (errors (device_summary_pass s3)))).
  split; [exact E|].
  destruct S as (St & Se & _). split.
  - rewrite Ke. destruct R as [-> | (e & ->)]; rewrite Se; simpl; auto.
  - unfold printed_summary. rewrite Ks, V.
    rewrite (run_catalog_keys _ _ _ _ _ _ _ _ E1).
    assert (target (device_summary_pass s3) = "192.168.1.68:8899") as ->.
    { unfold device_summary_pass.
      assert (target s3 = target s2) as T3.
      { unfold Info.stream_pass, try_except in E2.
        match type of E2 with context [match ?m w2 with _ => _ end] =>
          destruct (m w2) as [[e|a] wx] eqn:X end.
        - unfold ret in E2. now injection E2 as <- _.
        - injection E2 as <- _.
          destruct (truthy (VList (profiles c2))).
          + apply bind_inr_inv in X. destruct X as (media & wy & _ & X).
            apply bind_inr_inv in X. destruct X as (sm & wz & _ & X).
            unfold ret in X. now injection X as <- _.
          + unfold ret in X. now injection X as <- _. }
      destruct (getattr_get _); simpl; rewrite T3, St; reflexivity. }
    reflexivity.
Qed.


(** ** The stream pass *)

Lemma stream_loop_strings (media : service W raw) (names : list string) :
  forall (stream_map : dict) (w : W),
  exists m w',
    stream_loop media (map VStr names) stream_map w = (inr m, w') /\
    dict_keys m = fold_left add_key (map VStr names) (dict_keys stream_map) /\
    (forall k, In k names -> exists v, dict_get m (VStr k) = Some v) /\
    (forall k v, dict_get m (VStr k) = Some v ->
                 dict_get stream_map (VStr k) = Some v \/
                 exists w0 w1, stream_outcome media (VStr k) w0 v w1).
Proof.
  induction names as [|name names IH]; intros stream_map w.
  - exists stream_map, w. split; [reflexivity|]. split; [reflexivity|].
    split; [intros k [] | auto].
  - destruct (WalkFacts.stream_turn W raw serialize_object json_roundtrip
                py_str media name stream_map (map VStr names) w)
      as (v & w1 & O & T).
    destruct (IH (dict_set stream_map (VStr name) v) w1)
      as (m & w' & E & K & A & B).
    exists m, w'. cbn [map]. rewrite T. split; [exact E|].
    split; [rewrite K, dict_keys_set; reflexivity|]. split.
    + intros k [<-|I]; [|now apply A].
      destruct (in_dec string_dec name names) as [I|I]; [now apply A|].
      destruct (dict_get m (VStr name)) as [x|] eqn:G; [now exists x|].
      exfalso.
      assert (In (VStr name) (dict_keys m)) as Hin.
      { rewrite K, dict_keys_set. clear.
        assert (forall ks, In (VStr name) ks ->
                           In (VStr name) (fold_left add_key (map VStr names) ks))
          as M.
        { induction names as [|n ns IHn]; intros ks H; [exact H|].
          simpl. apply IHn. clear IHn. induction ks as [|k ks IHk];
            [elim H|]. simpl. destruct (key_eqb k (VStr n)).
          - exact H.
          - destruct H as [->|H]; [now left | right; now apply IHk]. }
        apply M. clear. induction (dict_keys stream_map) as [|k ks IHk]; simpl.
        - now left.
        - destruct (key_eqb k (VStr name)) eqn:Ek.
          + apply key_eqb_str in Ek. subst k. now left.
          + now right. }
      clear - G Hin. unfold dict_keys in Hin.
      induction m as [|[k x] m IHm]; [elim Hin|]. simpl in *.
      destruct (key_eqb k (VStr name)) eqn:Ek; [discriminate|].
      destruct Hin as [->|Hin]; [|now apply IHm].
      simpl in Ek. now rewrite String.eqb_refl in Ek.
    + intros k x G. destruct (B k x G) as [G1|G1]; [|now right].
      rewrite dict_get_set in G1. destruct (String.eqb_spec name k) as [<-|N].
      * injection G1 as <-. right. now exists w, w1.
      * now left.
Qed.

(** How [stream_pass] ends for a list of string tokens. *)
Lemma stream_pass_strings (cam : ONVIFCamera W raw) (media : service W raw)
    (s : Summary) (c : Context) (names : list string) (w : W) :
  create_media_service cam = inr media ->
  profiles c = map VStr names -> names <> [] ->
  exists m w',
    stream_pass cam s c w = (inr (set_stream_uris s m), w') /\
    dict_keys m = fold_left add_key (map VStr names) [] /\
    (forall k, In k names -> exists v, dict_get m (VStr k) = Some v) /\
    (forall k v, dict_get m (VStr k) = Some v ->
                 exists w0 w1, stream_outcome media (VStr k) w0 v w1).
Proof.
  intros M P N. unfold Info.stream_pass. rewrite P, M.
  destruct (stream_loop_strings media names [] w) as (m & w' & E & K & A & B).
  exists m, w'. split; [|split; [exact K|split; [exact A|]]].
  - destruct names as [|n names]; [now elim N|].
    unfold try_except. cbn [map truthy].
    rewrite (bind_inr (lift W (inr media)) _ w w media eq_refl).
    rewrite (bind_inr _ _ _ _ _ E). reflexivity.
  - intros k v G. destruct (B k v G) as [G1|G1]; [discriminate | exact G1].
Qed.

(** With no profile token in the context, the stream pass does nothing. *)
Lemma stream_pass_nothing (cam : ONVIFCamera W raw) (s : Summary)
    (c : Context) (w : W) :
  profiles c = [] -> stream_pass cam s c w = (inr s, w).
Proof. intros P. unfold Info.stream_pass. rewrite P. reflexivity. Qed.

(** The context after the catalog pass when the media session cannot be
    created. *)
Lemma catalog_without_media (cam : ONVIFCamera W raw) (e : py_exn)
    (s s2 : Summary) (c c2 : Context) (w w2 : W) :
  create_media_service cam = inl e ->
  nothing_to_derive s c -> profiles c = [] ->
  run_catalog cam SERVICE_METHODS (s, c) w = (inr (s2, c2), w2) ->
  profiles c2 = [].
Proof.
  intros M H P R.
  remember [ ("imaging", [("GetServiceCapabilities", []:dict); ("GetImagingSettings", [])]);
             ("ptz", [("GetServiceCapabilities", []); ("GetNodes", [])]);
             ("events", [("GetServiceCapabilities", [])]) ] as rest eqn:Hrest.
  assert (NoDup (map fst rest) /\ ~ In "media_GetProfiles" (map fst rest) /\
          ~ In "media" (map fst rest)) as (D & N1 & N2).
  { subst rest. simpl. split; [|split]; try (intuition discriminate).
    repeat constructor; simpl; intuition discriminate. }
  replace SERVICE_METHODS with
    (nth 0 SERVICE_METHODS ("", []) :: nth 1 SERVICE_METHODS ("", []) :: rest)
    in R by (subst rest; reflexivity).
  cbn [Info.run_catalog nth SERVICE_METHODS] in R.
  apply bind_inr_inv in R. destruct R as ([sa ca] & wa & Ea & R).
  apply bind_inr_inv in R. destruct R as ([sb cb] & wb & Eb & R).
  match type of Ea with Info.run_service _ _ _ _ _ cam (?n, ?l) _ _ = _ =>
    destruct (WalkFacts.run_service_spec W raw serialize_object json_roundtrip
                py_str cam n l s c w) as
      (sa' & ca' & wa' & Ea' & Ha & _ & Pa & _); [discriminate | exact H |] end.
  pose proof (eq_trans (eq_sym Ea') Ea) as Qa. injection Qa as -> -> ->.
  match type of Eb with Info.run_service _ _ _ _ _ cam (?n, ?l) _ _ = _ =>
    destruct (WalkFacts.run_service_spec W raw serialize_object json_roundtrip
                py_str cam n l sa ca wa) as
      (sb' & cb' & wb' & Eb' & Hb & _ & _ & _); [discriminate | exact Ha |] end.
  pose proof (eq_trans (eq_sym Eb') Eb) as Qb. injection Qb as -> -> ->.
  destruct (WalkFacts.run_catalog_spec W raw serialize_object json_roundtrip
              py_str cam rest sb cb wb D N1 Hb)
    as (sc & cc & wc & Ec & _ & _ & Pc & _).
  rewrite Ec in R. injection R as <- <- <-.
  rewrite (Pc N2).
  unfold Info.run_service in Eb.
  change (service_creators cam "media") with (Some (create_media_service cam))
    in Eb.
  rewrite M in Eb. unfold ret in Eb. injection Eb as _ <- _.
  rewrite Pa by discriminate. exact P.
Qed.



(** The facts about a finished run that the stream theorems share. *)
Lemma stream_stage (cam : ONVIFCamera W raw) (w w' : W) (report : Summary) :
  main (inr cam) w = (inr (Finished report), w') ->
  exists s2 c2 w2 s3,
    stream_pass cam s2 c2 w2 = (inr s3, w') /\
    services report = services s2 /\
    errors s2 = [] /\ stream_uris s2 = None /\
    errors report = errors s3 /\ stream_uris report = stream_uris s3 /\
    ((exists e, create_media_service cam = inl e /\ profiles c2 = [] /\
                dict_get (services s2) (VStr "media")
                = Some (VDict (session_failure "media" e))) \/
     (exists media, create_media_service cam = inr media) /\
     forall entry out,
       dict_get (services s2) (VStr "media") = Some (VDict entry) ->
       dict_get entry (VStr "GetProfiles") = Some (VDict out) ->
       profiles c2 = match profile_tokens out with
                     | Some tokens => tokens
                     | None => []
                     end).
Proof.
  intros Hm.
  destruct (main_stages cam w)
    as (gsv & wa & s2 & c2 & wb & s3 & w3 & _ & Ec & Hn & S & K & Es & V & _ & E).
  rewrite E in Hm. injection Hm as <- <-.
  destruct (WalkFacts.device_summary_pass_keeps s3) as (Ks & Ke & Ku).
  exists s2, c2, wb, s3. split; [exact Es|].
  split; [now rewrite Ks|].
  destruct S as (_ & Se & Su & _).
  split; [now rewrite Se|]. split; [now rewrite Su|].
  split; [exact Ke|]. split; [exact Ku|].
  destruct (create_media_service cam) as [e|media] eqn:M.
  - left. exists e. split; [reflexivity|]. split.
    + now apply (catalog_without_media cam e _ s2 _ c2 wa wb M Hn eq_refl Ec).
    + destruct (K "media" _ (or_intror (or_introl eq_refl))) as (x & Gx & Tx).
      unfold Info.service_entry in Tx.
      change (service_creators cam "media")
        with (Some (create_media_service cam)) in Tx.
      rewrite M in Tx. now subst x.
  - right. split; [now exists media|]. intros entry out G1 G2.
    destruct (WalkFacts.catalog_profiles W raw serialize_object json_roundtrip
                py_str cam _ s2 _ c2 wa wb entry out Hn eq_refl Ec G1 G2)
      as (_ & _ & P).
    exact P.
Qed.

(** When the report shows a [GetProfiles] outcome from which the string
    tokens [names] were taken, the report holds [stream_uris]; its keys
    are these tokens, each once, in the order of their first occurrence;
    every value is the outcome of a [GetStreamUri] turn for its key; and
    [errors] is empty. *)
Theorem stream_uris_for_tokens (cam : ONVIFCamera W raw) (w w' : W)
    (report : Summary) (entry out : dict) (names : list string) :
  main (inr cam) w = (inr (Finished report), w') ->
  dict_get (services report) (VStr "media") = Some (VDict entry) ->
  dict_get entry (VStr "GetProfiles") = Some (VDict out) ->
  profile_tokens out = Some (map VStr names) ->
  names <> [] ->
  exists media m,
    create_media_service cam = inr media /\
    stream_uris report = Some m /\
    dict_keys m = fold_left add_key (map VStr names) [] /\
    (forall k, In k names -> exists v, dict_get m (VStr k) = Some v) /\
    (forall k v, dict_get m (VStr k) = Some v ->
                 exists w0 w1, stream_outcome media (VStr k) w0 v w1) /\
    errors report = [].
Proof.
  intros Hm G1 G2 T N.
  destruct (stream_stage cam w w' report Hm)
    as (s2 & c2 & w2 & s3 & Es & V & Ee & _ & Re & Ru & C).
  rewrite V in G1.
  destruct C as [(e & M & P & F)|((media & M) & P)].
  - rewrite F in G1. injection G1 as <-. discriminate G2.
  - specialize (P entry out G1 G2). rewrite T in P.
    destruct (stream_pass_strings cam media s2 c2 names w2 M P N)
      as (m & wx & E & K & A & B).
    pose proof (eq_trans (eq_sym E) Es) as Q. injection Q as <- _.
    exists media, m. split; [exact M|].
    split; [rewrite Ru; reflexivity|]. split; [exact K|]. split; [exact A|].
    split; [exact B|]. rewrite Re. exact Ee.
Qed.


(** Without a profile token there is no stream pass: when the media
    session cannot be created, or [GetProfiles] ends in a failure, or its
    result yields no token, the report has no [stream_uris] and [errors]
    is empty. *)
Theorem no_tokens_no_stream_uris (cam : ONVIFCamera W raw) (w w' : W)
    (report : Summary) :
  main (inr cam) w = (inr (Finished report), w') ->
  (exists e, create_media_service cam = inl e) \/
  (exists entry out,
      dict_get (services report) (VStr "media") = Some (VDict entry) /\
      dict_get entry (VStr "GetProfiles") = Some (VDict out) /\
      ((exists e, out = failure e) \/
       (exists e, out = lookup_failure "GetProfiles" e) \/
       profile_tokens out = Some [] \/ profile_tokens out = None)) ->
  stream_uris report = None /\ errors report = [].
Proof.
  intros Hm H.
  destruct (stream_stage cam w w' report Hm)
    as (s2 & c2 & w2 & s3 & Es & V & Ee & Eu & Re & Ru & C).
  assert (profiles c2 = []) as P.
  { destruct C as [(e & M & P & F)|((media & M) & P)]; [exact P|].
    destruct H as [(e & Me)|(entry & out & G1 & G2 & Ho)]; [congruence|].
    rewrite V in G1. rewrite (P entry out G1 G2).
    destruct Ho as [(e & ->)|[(e & ->)|[-> | ->]]]; reflexivity. }
  rewrite (stream_pass_nothing cam s2 c2 w2 P) in Es.
  injection Es as <- _. now rewrite Ru, Re.
Qed.


(** ** The imaging category *)

(** The imaging category, reached as [main] reaches it, makes one call
    only: the world after it is the world after [GetServiceCapabilities],
    its entry holds that outcome and the note for [GetImagingSettings],
    and the context is as before. *)
Theorem imaging_makes_one_call (cam : ONVIFCamera W raw)
    (svc : service W raw) (s : Summary) (c : Context) (w : W) :
  nothing_to_derive s c ->
  create_imaging_service cam = inr svc ->
  exists out w',
    safe_call svc "GetServiceCapabilities" [] w = (inr out, w') /\
    run_service cam
      ("imaging", [("GetServiceCapabilities", []); ("GetImagingSettings", [])])
      (s, c) w
    = (inr (set_service s "imaging"
              [ (VStr "GetServiceCapabilities", VDict out);
                (VStr "GetImagingSettings", VDict prerequisite_missing) ],
            c), w').
Proof.
  intros H C.
  destruct (WalkFacts.run_service_spec W raw serialize_object json_roundtrip
              py_str cam "imaging"
              [("GetServiceCapabilities", []); ("GetImagingSettings", [])]
              s c w) as (s' & c' & w' & E & _); [discriminate | exact H |].
  pose proof E as R. unfold Info.run_service in R.
  change (service_creators cam "imaging")
    with (Some (create_imaging_service cam)) in R.
  rewrite C in R. simpl in R. unfold Info.run_call in R. simpl in R.
  apply bind_inr_inv in R. destruct R as (st2 & w2 & R & R3).
  apply bind_inr_inv in R. destruct R as (st1 & w1 & R1 & R2).
  apply bind_inr_inv in R1. destruct R1 as (o0 & w0 & E0 & R1).
  unfold ret in R1. injection R1 as <- <-.
  apply bind_inr_inv in R2. destruct R2 as (st2' & w2' & R2 & R2').
  unfold ret in R2'. injection R2' as <- <-.
  apply bind_inr_inv in R2. destruct R2 as (tokens & wt & T & R2).
  rewrite WalkFacts.imaging_tokens_none in T by exact H.
  injection T as <- <-. simpl in R2. unfold ret in R2, R3.
  injection R2 as <- <-. injection R3 as <- <- <-.
  exists o0, w0. split; [exact E0|]. refine (eq_trans E _).
  rewrite set_service_twice.
  destruct H as [_ Hv]. destruct c as [p v]. simpl in *. now subst v.
Qed.

End Run.

Lemma safe_call_falls_back_witness :
  Info.safe_call Samples.World pyval MoreSamples.unserializable
    MoreSamples.unserializable Samples.plain_str
    (Samples.canned "device" Samples.device_answers) "GetHostname" [] []
  = (inr (success (VStr "dict")), ["device.GetHostname"]).
Proof.
  exact (safe_call_falls_back Samples.World pyval MoreSamples.unserializable
           MoreSamples.unserializable Samples.plain_str
           (Samples.canned "device" Samples.device_answers) "GetHostname" []
           _ (VDict []) "dict" [] ["device.GetHostname"]
           eq_refl eq_refl eq_refl).
Defined.

Lemma stream_uris_for_tokens_witness :
  let r := Samples.sample_main Samples.camera_without_ptz in
  profile_tokens (success Samples.two_profiles)
    = Some (map VStr ["P1"; "P2"]) /\
  exists media m,
    create_media_service Samples.camera_without_ptz = inr media /\
    stream_uris (Samples.report_of r) = Some m /\
    dict_keys m = [VStr "P1"; VStr "P2"] /\
    errors (Samples.report_of r) = [].
Proof.
  split; [reflexivity|].
  destruct (stream_uris_for_tokens Samples.World pyval Samples.plain
              Samples.plain Samples.plain_str Samples.camera_without_ptz []
              (snd (Samples.sample_main Samples.camera_without_ptz))
              (Samples.report_of (Samples.sample_main Samples.camera_without_ptz))
              (Samples.entry_of
                 (services (Samples.report_of
                              (Samples.sample_main Samples.camera_without_ptz)))
                 "media")
              (success Samples.two_profiles) ["P1"; "P2"])
    as (media & m & M & U & K & _ & _ & E).
  - vm_compute. reflexivity.
  - vm_compute. reflexivity.
  - vm_compute. reflexivity.
  - reflexivity.
  - discriminate.
  - exists media, m. split; [exact M|]. split; [exact U|].
    split; [exact K | exact E].
Defined.

Lemma no_tokens_no_stream_uris_witness :
  let r := Samples.sample_main MoreSamples.camera_without_media in
  fst r = inr (Finished (Samples.report_of r)) /\
  stream_uris (Samples.report_of r) = None /\
  errors (Samples.report_of r) = [].
Proof.
  split; [vm_compute; reflexivity|].
  apply (no_tokens_no_stream_uris Samples.World pyval Samples.plain
           Samples.plain Samples.plain_str MoreSamples.camera_without_media []
           (snd (Samples.sample_main MoreSamples.camera_without_media))).
  - vm_compute. reflexivity.
  - left. eexists. reflexivity.
Defined.


Lemma imaging_makes_one_call_witness :
  nothing_to_derive (MoreSamples.initial_summary []) (mk_context [] []) /\
  exists out w',
    Info.run_service Samples.World pyval Samples.plain Samples.plain
      Samples.plain_str Samples.camera_without_ptz
      ("imaging", [("GetServiceCapabilities", []); ("GetImagingSettings", [])])
      (MoreSamples.initial_summary [], mk_context [] []) []
    = (inr (set_service (MoreSamples.initial_summary []) "imaging"
              [ (VStr "GetServiceCapabilities", VDict out);
                (VStr "GetImagingSettings", VDict prerequisite_missing) ],
            mk_context [] []), w').
Proof.
  assert (nothing_to_derive (MoreSamples.initial_summary []) (mk_context [] []))
    as H by (split; reflexivity).
  split; [exact H|].
  destruct (imaging_makes_one_call Samples.World pyval Samples.plain
              Samples.plain Samples.plain_str Samples.camera_without_ptz
              (Samples.canned "imaging" (fun _ => inr (VDict [])))
              (MoreSamples.initial_summary []) (mk_context [] []) [] H eq_refl)
    as (out & w' & _ & E).
  exists out, w'. exact E.
Defined.

End RunFacts.
